(** * WallpaperGenerator.jsx and PhonePreview.jsx: a shallow embedding

    The React component [WallpaperGenerator] keeps five state variables
    (prompt, style, isGenerating, generatedImage, error), has two event
    handlers (generateWallpaper, downloadWallpaper) and renders a form, an
    error banner, two buttons and the [PhonePreview] component.

    The embedding follows the source statement by statement:
    - JavaScript values are an inductive type, strings are sequences of
      UTF-16 code units, numbers are binary64 floats;
    - a handler is a computation in a small monad that records the effects
      it performs (state setters, the axios call, console.error, the anchor
      click) and either completes or throws;
    - the async handler is cut at its single [await]: the part before it and
      the continuation that runs when the promise settles;
    - the page is a transition system over user and network events. *)

From Stdlib Require Import List NArith ZArith Bool String Ascii Lia.
From Stdlib Require PrimFloat DecimalZ.
From Stdlib Require Import DecimalString.
Import ListNotations.

Set Implicit Arguments.
Set Warnings "-register-all".

(** ** JavaScript values *)

Module Js.

(** A string is a sequence of UTF-16 code units. *)
Definition code_unit := N.
Definition jsstring := list code_unit.

(** String literals of the source, written as Rocq strings. *)
Definition lit (s : string) : jsstring :=
  map N_of_ascii (list_ascii_of_string s).

Fixpoint str_eqb (a b : jsstring) : bool :=
  match a, b with
  | [], [] => true
  | x :: a', y :: b' => N.eqb x y && str_eqb a' b'
  | _, _ => false
  end.

Inductive value : Type :=
| JUndefined
| JNull
| JBool (b : bool)
| JNum (f : PrimFloat.float)
| JStr (s : jsstring)
| JArr (items : list value)
| JObj (fields : list (jsstring * value)).

(** ToBoolean: undefined, null, false, +0, -0, NaN and the empty string
    are falsy, everything else (every object and array too) is truthy. *)
Definition truthy (v : value) : bool :=
  match v with
  | JUndefined | JNull => false
  | JBool b => b
  | JNum f => negb (PrimFloat.is_zero f || PrimFloat.is_nan f)
  | JStr [] => false
  | JStr (_ :: _) => true
  | JArr _ | JObj _ => true
  end.

(** [a || b] *)
Definition or_else (a b : value) : value :=
  if truthy a then a else b.

Fixpoint lookup (k : jsstring) (fields : list (jsstring * value)) : value :=
  match fields with
  | [] => JUndefined
  | (k', v) :: rest => if str_eqb k k' then v else lookup k rest
  end.

(** The value thrown by a property read on undefined or null. *)
Definition TypeError : value :=
  JObj [(lit "name", JStr (lit "TypeError"))].

(** [o.k] for the property names this program reads (success, image_url,
    error): a read on undefined or null throws a TypeError ([inr]); an
    object yields its field or undefined; booleans, numbers, strings and
    arrays have no property of these names. *)
Definition get_prop (o : value) (k : jsstring) : value + value :=
  match o with
  | JUndefined | JNull => inr TypeError
  | JObj fields => inl (lookup k fields)
  | JBool _ | JNum _ | JStr _ | JArr _ => inl JUndefined
  end.

(** WhiteSpace and LineTerminator code points of ECMAScript, the ones
    String.prototype.trim strips: TAB, LF, VT, FF, CR, SP, NBSP, the
    Unicode space separators, LS, PS and the byte order mark. *)
Definition isWhiteSpace (c : code_unit) : bool :=
  ((9 <=? c) && (c <=? 13) || (c =? 32) || (c =? 160) || (c =? 5760)
   || (8192 <=? c) && (c <=? 8202) || (c =? 8232) || (c =? 8233)
   || (c =? 8239) || (c =? 8287) || (c =? 12288) || (c =? 65279))%N.

Fixpoint trimStart (s : jsstring) : jsstring :=
  match s with
  | [] => []
  | c :: rest => if isWhiteSpace c then trimStart rest else s
  end.

Definition trimEnd (s : jsstring) : jsstring :=
  rev (trimStart (rev s)).

Definition trim (s : jsstring) : jsstring :=
  trimEnd (trimStart s).

(** ToString of an integral Number below 10^21 in magnitude: its decimal
    digits, with a minus sign when negative. *)
Definition int_to_string (n : Z) : jsstring :=
  lit (NilZero.string_of_int (Z.to_int n)).

End Js.
Import Js.

(** ** Effects and the handler monad *)

(** The attributes given to the anchor element before it is clicked. *)
Record Anchor : Type := mkAnchor {
  href : value;
  download : jsstring;
  target : jsstring
}.

(** What a handler can do to the world: call one of the five state setters
    of the component, start an HTTP request, write to the console, or click
    a freshly made anchor element. *)
Inductive Effect : Type :=
| SetPrompt (text : jsstring)
| SetStyle (label : jsstring)
| SetIsGenerating (b : bool)
| SetGeneratedImage (v : value)
| SetError (v : value)
| AxiosPost (url : jsstring) (body : value)
| ConsoleError (args : list value)
| AnchorClick (a : Anchor).

(** A computation performs effects in order and then either returns a
    result ([inl]) or throws a JavaScript value ([inr]). *)
Definition M (A : Type) : Type := (list Effect * (A + value))%type.

Definition ret {A} (a : A) : M A := ([], inl a).

Definition bind {A B} (m : M A) (k : A -> M B) : M B :=
  match m with
  | (es, inl a) => let (es', r) := k a in (es ++ es', r)
  | (es, inr exn) => (es, inr exn)
  end.

Definition emit (e : Effect) : M unit := ([e], inl tt).

Definition lift {A} (r : A + value) : M A := ([], r).

(** [try { body } catch (err) { handler err }] *)
Definition try_catch {A} (body : M A) (handler : value -> M A) : M A :=
  match body with
  | (es, inl a) => (es, inl a)
  | (es, inr exn) => let (es', r) := handler exn in (es ++ es', r)
  end.

(** [... finally { cleanup }]: the cleanup runs on both exits; the outcome
    is that of the protected block unless the cleanup itself throws. *)
Definition finally {A} (body : M A) (cleanup : M unit) : M A :=
  match body, cleanup with
  | (es, r), (es', inl _) => (es ++ es', r)
  | (es, _), (es', inr exn) => (es ++ es', inr exn)
  end.

Declare Scope js_scope.
Delimit Scope js_scope with js.
Notation "x <- m ;; k" := (bind m (fun x => k))
  (at level 61, m at next level, right associativity) : js_scope.
Notation "m ;; k" := (bind m (fun _ => k))
  (at level 61, right associativity) : js_scope.
Local Open Scope js_scope.

(** The effects of a handler whose returned promise nobody reads. *)
Definition effects_of {A} (m : M A) : list Effect := fst m.

(** ** Component state *)

(** The five [useState] cells.  [isGenerating] only ever receives the
    literals true and false; [generatedImage] and [error] start as null and
    receive whatever the response carries. *)
Record State : Type := mkState {
  prompt : jsstring;
  style : jsstring;
  isGenerating : bool;
  generatedImage : value;
  error : value
}.

Definition initial_state : State :=
  {| prompt := []; style := []; isGenerating := false;
     generatedImage := JNull; error := JNull |}.

(** ** Module constants *)

(** [process.env.REACT_APP_API_URL || 'http://localhost:8000'], the
    environment variable being a string or undefined ([None]). *)
Definition API_BASE (REACT_APP_API_URL : option jsstring) : jsstring :=
  match REACT_APP_API_URL with
  | Some url => if truthy (JStr url) then url else lit "http://localhost:8000"
  | None => lit "http://localhost:8000"
  end.

Definition API (env : option jsstring) : jsstring :=
  API_BASE env ++ lit "/api".

(** ** generateWallpaper *)

(** How the awaited promise settles: axios fulfils it with a response whose
    [data] is the parsed body, or rejects it (no connection, timeout, a
    status outside 2xx) with an error value. *)
Inductive Settled : Type :=
| Fulfilled (data : value)
| Rejected (reason : value).

Definition await (p : Settled) : M value :=
  match p with
  | Fulfilled data => ret data
  | Rejected reason => lift (inr reason)
  end.

(** Lines 38-51: from the call of the handler to the [await].  The closure
    reads [prompt] and [style] of the render it was created in. *)
Definition generateWallpaper (env : option jsstring) (st : State) : M unit :=
  if negb (truthy (JStr (trim (prompt st)))) then
    emit (SetError (JStr (lit "Please enter a prompt")))
  else
    emit (SetIsGenerating true) ;;
    emit (SetError JNull) ;;
    emit (AxiosPost (API env ++ lit "/generate-wallpaper")
            (JObj [(lit "prompt", JStr (trim (prompt st)));
                   (lit "style", JStr (style st));
                   (lit "aspect_ratio", JStr (lit "9:16"))])).

(** Lines 46-63: the rest of the try block once the promise has settled,
    with its catch and finally clauses. *)
Definition generateWallpaper_resume (p : Settled) : M unit :=
  finally
    (try_catch
       (data <- await p ;;
        success <- lift (get_prop data (lit "success")) ;;
        if truthy success then
          image_url <- lift (get_prop data (lit "image_url")) ;;
          emit (SetGeneratedImage image_url)
        else
          err <- lift (get_prop data (lit "error")) ;;
          emit (SetError (or_else err (JStr (lit "Failed to generate wallpaper")))))
       (fun err =>
          emit (ConsoleError [JStr (lit "Error generating wallpaper:"); err]) ;;
          emit (SetError (JStr (lit "Failed to generate wallpaper. Please try again.")))))
    (emit (SetIsGenerating false)).

(** ** downloadWallpaper *)

(** Lines 66-74; [now] is the value of [Date.now()], an integral number of
    milliseconds. *)
Definition downloadWallpaper (now : Z) (st : State) : M unit :=
  if truthy (generatedImage st) then
    emit (AnchorClick
            {| href := generatedImage st;
               download := lit "wallpaper-" ++ int_to_string now ++ lit ".jpg";
               target := lit "_blank" |})
  else
    ret tt.

(** ** PhonePreview *)

(** A rendered React element: a tag (or component name) with its props and
    children, or a text node. *)
Inductive Node : Type :=
| El (tag : string) (props : list (string * value)) (children : list Node)
| Txt (text : string).

Definition className (c : string) : string * value :=
  ("className"%string, JStr (lit c)).

Definition div (c : string) (children : list Node) : Node :=
  El "div" [className c] children.

(** Lines 270-273: the spinner and its caption. *)
Definition loadingIndicator : Node :=
  div "flex flex-col items-center justify-center space-y-4 text-gray-500"
    [ El "Loader2" [className "w-8 h-8 animate-spin"] [];
      El "p" [className "text-sm"] [Txt "Generating..."] ].

(** Lines 275-280: the generated image. *)
Definition wallpaperImage (imageUrl : value) : Node :=
  El "img"
    [ ("src"%string, imageUrl);
      ("alt"%string, JStr (lit "Generated wallpaper"));
      className "w-full h-full object-cover";
      ("style"%string, JObj [(lit "objectPosition", JStr (lit "center center"))]) ]
    [].

(** Lines 282-289: the picture glyph and the caption under it. *)
Definition placeholder : Node :=
  div "flex flex-col items-center justify-center space-y-4 text-gray-400"
    [ div "w-16 h-16 border-2 border-gray-300 rounded-lg flex items-center justify-center"
        [ El "svg"
            [ className "w-8 h-8";
              ("fill"%string, JStr (lit "currentColor"));
              ("viewBox"%string, JStr (lit "0 0 20 20")) ]
            [ El "path"
                [ ("fillRule"%string, JStr (lit "evenodd"));
                  ("d"%string, JStr (lit "M4 3a2 2 0 00-2 2v10a2 2 0 002 2h12a2 2 0 002-2V5a2 2 0 00-2-2H4zm12 12H4l4-8 3 6 2-4 3 6z"));
                  ("clipRule"%string, JStr (lit "evenodd")) ]
                [] ] ];
      El "p" [className "text-sm text-center"] [Txt "Your wallpaper will appear here"] ].

(** Lines 242-305.  The props are untyped in the source; the conditional
    tests their truthiness. *)
Definition PhonePreview (imageUrl isLoading : value) : Node :=
  div "relative"
    [ div "relative w-64 h-[520px] bg-black rounded-[3rem] p-2 shadow-2xl"
        [ div "relative w-full h-full bg-gray-900 rounded-[2.5rem] overflow-hidden"
            [ div "absolute top-2 left-1/2 transform -translate-x-1/2 w-32 h-6 bg-black rounded-full z-20" [];
              div "relative w-full h-full bg-gray-100 rounded-[2.2rem] overflow-hidden"
                [ div "absolute top-0 left-0 right-0 h-10 bg-black/5 flex items-center justify-between px-6 pt-2 z-10"
                    [ div "flex items-center space-x-1"
                        [ div "text-xs font-semibold" [Txt "9:41"] ];
                      div "flex items-center space-x-1"
                        [ div "w-4 h-2 bg-black rounded-sm" [];
                          div "w-6 h-3 border border-black rounded-sm"
                            [ div "w-4 h-1.5 bg-green-500 rounded-sm mt-0.5 ml-0.5" [] ] ] ];
                  div "absolute inset-0 flex items-center justify-center"
                    [ if truthy isLoading then loadingIndicator
                      else if truthy imageUrl then wallpaperImage imageUrl
                      else placeholder ];
                  div "absolute bottom-2 left-1/2 transform -translate-x-1/2 w-32 h-1 bg-black/30 rounded-full" [] ] ] ];
      div "absolute inset-0 -z-10 transform translate-y-2 blur-xl opacity-25"
        [ div "w-64 h-[520px] bg-black rounded-[3rem]" [] ] ].

(** *** Reading a rendered tree *)

(** All nodes of a tree, parents before children, in document order. *)
Fixpoint nodes (n : Node) : list Node :=
  n :: match n with
       | El _ _ children =>
           (fix over (l : list Node) : list Node :=
              match l with
              | [] => []
              | c :: rest => nodes c ++ over rest
              end) children
       | Txt _ => []
       end.

Definition has_tag (t : string) (n : Node) : bool :=
  match n with
  | El tag _ _ => String.eqb tag t
  | Txt _ => false
  end.

Definition is_text (t : string) (n : Node) : bool :=
  match n with
  | El _ _ _ => false
  | Txt text => String.eqb text t
  end.

Fixpoint prop (name : string) (props : list (string * value)) : value :=
  match props with
  | [] => JUndefined
  | (k, v) :: rest => if String.eqb k name then v else prop name rest
  end.

Definition props_of (n : Node) : list (string * value) :=
  match n with
  | El _ props _ => props
  | Txt _ => []
  end.

(** The words of a space-separated class list. *)
Fixpoint words (acc : jsstring) (s : jsstring) : list jsstring :=
  match s with
  | [] => [rev acc]
  | c :: rest => if N.eqb c 32 then rev acc :: words [] rest
                 else words (c :: acc) rest
  end.

Definition has_class (c : string) (n : Node) : bool :=
  match prop "className" (props_of n) with
  | JStr s => existsb (str_eqb (lit c)) (words [] s)
  | _ => false
  end.

(** The three things the screen area can show. *)
Inductive Visual : Type := ShowsLoading | ShowsImage | ShowsPlaceholder.

(** What a rendered preview shows, read off the tree: a spinning Loader2
    element, an img element, or the svg glyph with the caption. *)
Definition spinners (n : Node) : list Node :=
  filter (fun x => has_tag "Loader2" x && has_class "animate-spin" x) (nodes n).

Definition images (n : Node) : list Node :=
  filter (has_tag "img") (nodes n).

Definition glyphs (n : Node) : list Node :=
  filter (has_tag "svg") (nodes n).

Definition captions (n : Node) : list Node :=
  filter (is_text "Your wallpaper will appear here") (nodes n).

(** ** The page as a transition system *)

(** What the JSX of WallpaperGenerator makes of the state, as far as the
    handlers are reachable through it: the error banner (lines 129-133),
    the Generate button (135-149), the Download and Regenerate buttons
    (196-216) and the preview (190-193). *)
Record Controls : Type := mkControls {
  banner : option value;
  generateDisabled : bool;
  actionsShown : bool;
  regenerateDisabled : bool;
  preview : Node
}.

(** [render] reads the controls off the state whatever the error holds;
    [mounted] below adds the case of a state React cannot render. *)
Definition render (st : State) : Controls :=
  {| banner := if truthy (error st) then Some (error st) else None;
     generateDisabled := isGenerating st;
     actionsShown := truthy (generatedImage st);
     regenerateDisabled := isGenerating st;
     preview := PhonePreview (generatedImage st) (JBool (isGenerating st)) |}.

(** The status of the specification (Idle, Generating, Succeeded, Failed).
    The component has no such variable; the status is a history variable
    kept beside its state and moved by the writes of the handlers:
    [setIsGenerating(true)] (line 43) enters Generating,
    [setGeneratedImage] (line 54) enters Succeeded, [setError] with a
    message (lines 39, 56, 60) enters Failed; [setError(null)] and
    [setIsGenerating(false)] leave it as it is. *)
Inductive UIStatus : Type := Idle | Generating | Succeeded | Failed.

Definition status_after (e : Effect) (before : UIStatus) : UIStatus :=
  match e with
  | SetIsGenerating true => Generating
  | SetGeneratedImage _ => Succeeded
  | SetError v => if truthy v then Failed else before
  | _ => before
  end.

Definition Request : Type := (jsstring * value)%type.

(** The page: the component state, the requests axios has sent and that
    have not settled, the console, the anchors clicked so far, and the
    status. *)
Record Page : Type := mkPage {
  ui : State;
  inflight : list Request;
  console : list (list value);
  saved : list Anchor;
  status : UIStatus
}.

Definition write (st : State) (e : Effect) : State :=
  match e with
  | SetPrompt text =>
      {| prompt := text; style := style st; isGenerating := isGenerating st;
         generatedImage := generatedImage st; error := error st |}
  | SetStyle label =>
      {| prompt := prompt st; style := label; isGenerating := isGenerating st;
         generatedImage := generatedImage st; error := error st |}
  | SetIsGenerating b =>
      {| prompt := prompt st; style := style st; isGenerating := b;
         generatedImage := generatedImage st; error := error st |}
  | SetGeneratedImage v =>
      {| prompt := prompt st; style := style st; isGenerating := isGenerating st;
         generatedImage := v; error := error st |}
  | SetError v =>
      {| prompt := prompt st; style := style st; isGenerating := isGenerating st;
         generatedImage := generatedImage st; error := v |}
  | AxiosPost _ _ | ConsoleError _ | AnchorClick _ => st
  end.

Definition perform (pg : Page) (e : Effect) : Page :=
  {| ui := write (ui pg) e;
     inflight := match e with
                 | AxiosPost url body => inflight pg ++ [(url, body)]
                 | _ => inflight pg
                 end;
     console := match e with
                | ConsoleError args => console pg ++ [args]
                | _ => console pg
                end;
     saved := match e with
              | AnchorClick a => saved pg ++ [a]
              | _ => saved pg
              end;
     status := status_after e (status pg) |}.

Definition run_handler {A} (pg : Page) (h : M A) : Page :=
  fold_left perform (effects_of h) pg.

Definition initial_page : Page :=
  {| ui := initial_state; inflight := []; console := []; saved := [];
     status := Idle |}.

(** [submit()]: the handler run on the page as it is. *)
Definition submit (env : option jsstring) (pg : Page) : Page :=
  run_handler pg (generateWallpaper env (ui pg)).

(** The awaited promise settles and the handler resumes. *)
Definition resume (p : Settled) (pg : Page) : Page :=
  run_handler pg (generateWallpaper_resume p).

Fixpoint remove_nth {A} (i : nat) (l : list A) : list A :=
  match l, i with
  | [], _ => []
  | _ :: rest, O => rest
  | x :: rest, S j => x :: remove_nth j rest
  end.

(** What can happen to the page.  React renders again after every event
    that writes state, so each event meets the page of the latest render.
    A click reaches its handler only when the button is rendered and not
    disabled; a request can settle only while it is in flight, and
    [Settle i] settles the i-th of them.  [step] goes on from every state,
    also from one React cannot render; the pages it produces are a
    superset of the pages on the screen, and [live_gstep] below stops
    where the screen does. *)
Inductive Event : Type :=
| ChangePrompt (text : jsstring)
| ChangeStyle (label : jsstring)
| ClickGenerate
| ClickRegenerate
| ClickDownload (now : Z)
| Settle (i : nat) (p : Settled).

Definition step (env : option jsstring) (pg : Page) (ev : Event) : Page :=
  let view := render (ui pg) in
  match ev with
  | ChangePrompt text => perform pg (SetPrompt text)
  | ChangeStyle label => perform pg (SetStyle label)
  | ClickGenerate =>
      if generateDisabled view then pg else submit env pg
  | ClickRegenerate =>
      if actionsShown view && negb (regenerateDisabled view)
      then submit env pg else pg
  | ClickDownload now =>
      if actionsShown view
      then run_handler pg (downloadWallpaper now (ui pg)) else pg
  | Settle i p =>
      match nth_error (inflight pg) i with
      | Some _ =>
          resume p {| ui := ui pg; inflight := remove_nth i (inflight pg);
                      console := console pg; saved := saved pg;
                      status := status pg |}
      | None => pg
      end
  end.

Definition run (env : option jsstring) (evs : list Event) : Page :=
  fold_left (step env) evs initial_page.

Definition terminal (s : UIStatus) : bool :=
  match s with
  | Succeeded | Failed => true
  | Idle | Generating => false
  end.

(** "Set" is the test the source applies to both cells before it shows
    them ([error && ...], [generatedImage && ...]): truthiness. *)
Definition is_set (v : value) : bool := truthy v.

Definition exactly_one_set (st : State) : bool :=
  xorb (is_set (generatedImage st)) (is_set (error st)).

(** ** Names for the statements *)

(** The three messages of generateWallpaper (lines 39, 56 and 60). *)
Definition validation_message : value := JStr (lit "Please enter a prompt").
Definition server_fallback : value := JStr (lit "Failed to generate wallpaper").
Definition transport_fallback : value :=
  JStr (lit "Failed to generate wallpaper. Please try again.").

(** The request of lines 47-51. *)
Definition request_of (env : option jsstring) (st : State) : Request :=
  (API_BASE env ++ lit "/api/generate-wallpaper",
   JObj [(lit "prompt", JStr (trim (prompt st)));
         (lit "style", JStr (style st));
         (lit "aspect_ratio", JStr (lit "9:16"))]).

(** [data.k] when the read does not throw. *)
Definition field (data : value) (k : string) : value :=
  match get_prop data (lit k) with
  | inl v => v
  | inr _ => JUndefined
  end.

(** The effects of the catch clause followed by the finally clause. *)
Definition caught (exn : value) : list Effect :=
  [ConsoleError [JStr (lit "Error generating wallpaper:"); exn];
   SetError transport_fallback; SetIsGenerating false].

(** The requests a list of effects starts. *)
Fixpoint requests (es : list Effect) : list Request :=
  match es with
  | [] => []
  | AxiosPost url body :: rest => (url, body) :: requests rest
  | _ :: rest => requests rest
  end.

(** The file name given to the anchor at time [now]. *)
Definition file_name (now : Z) : jsstring :=
  lit "wallpaper-" ++ int_to_string now ++ lit ".jpg".

(** What a rendered preview shows: a spinner, an image, the placeholder
    (its glyph or its caption), in that order, each listed when some node
    of the tree is one. *)
Definition visuals (n : Node) : list Visual :=
  (match spinners n with [] => [] | _ :: _ => [ShowsLoading] end)
  ++ (match images n with [] => [] | _ :: _ => [ShowsImage] end)
  ++ (match glyphs n ++ captions n with
      | [] => []
      | _ :: _ => [ShowsPlaceholder]
      end).

(** The two response bodies the specification uses as examples. *)
Definition ok_body : value :=
  JObj [(lit "success", JBool true);
        (lit "image_url", JStr (lit "https://x/y.jpg"))].

Definition bad_body : value :=
  JObj [(lit "success", JBool false);
        (lit "error", JStr (lit "bad prompt"))].

(** What holds of every page the events can produce: the number of requests
    in flight follows the loading flag, the loading flag is on exactly in
    status Generating, and the error cell holds a message in status Failed
    and null otherwise. *)
Definition coherent (pg : Page) : Prop :=
  List.length (inflight pg) = (if isGenerating (ui pg) then 1 else 0)
  /\ isGenerating (ui pg)
       = match status pg with Generating => true | _ => false end
  /\ match status pg with
     | Failed => truthy (error (ui pg)) = true
     | _ => error (ui pg) = JNull
     end.

(** ** The JSX of WallpaperGenerator *)

(** [styles] (lines 22-35) and the quick prompts (lines 160-167). *)
Definition styles : list string :=
  ["Abstract"; "Minimalist"; "Nature"; "Cyberpunk"; "Watercolor";
   "Oil Painting"; "Digital Art"; "Photography"; "Anime"; "Geometric";
   "Gradient"; "Neon"]%string.

Definition quickPrompts : list string :=
  ["Neon cityscape at night"; "Peaceful mountain lake";
   "Abstract rainbow waves"; "Cosmic galaxy spiral"; "Minimalist sunset";
   "Cherry blossom spring"]%string.

(** String.prototype.toLowerCase on Basic Latin (code units below 128),
    where it changes the letters A-Z and nothing else.  The program applies
    it to the style names only. *)
Definition toLowerCase (s : jsstring) : jsstring :=
  map (fun c => if ((65 <=? c) && (c <=? 90))%N then (c + 32)%N else c) s.

(** The values the Select can hand to [setStyle] (line 121). *)
Definition styleValues : list jsstring :=
  map (fun styleOption => toLowerCase (lit styleOption)) styles.

(** The functions the JSX binds to events. *)
Inductive Callback : Type :=
| CbGenerateWallpaper                 (* generateWallpaper *)
| CbDownloadWallpaper                 (* downloadWallpaper *)
| CbSetStyle                          (* setStyle *)
| CbSetPromptFromEvent                (* (e) => setPrompt(e.target.value) *)
| CbSetPromptTo (text : jsstring).    (* () => setPrompt(quickPrompt) *)

Inductive Attr : Type :=
| AVal (v : value)
| AFun (cb : Callback).

(** An element of the page: a tag or component name with its attributes
    and children, a piece of JSX text, a JavaScript value in child position
    ([{error}], the falsy left operand of an [&&]), or a rendered
    PhonePreview. *)
Inductive VNode : Type :=
| VEl (tag : string) (attrs : list (string * Attr)) (children : list VNode)
| VTxt (text : string)
| VExpr (v : value)
| VPreview (rendered : Node).

Definition cn (c : string) : string * Attr :=
  ("className"%string, AVal (JStr (lit c))).

Definition sattr (name v : string) : string * Attr :=
  (name, AVal (JStr (lit v))).

(** Lines 120-124. *)
Definition styleItem (styleOption : string) : VNode :=
  VEl "SelectItem"
    [ ("key"%string, AVal (JStr (lit styleOption)));
      ("value"%string, AVal (JStr (toLowerCase (lit styleOption)))) ]
    [ VExpr (JStr (lit styleOption)) ].

(** Lines 167-175. *)
Definition quickBadge (quickPrompt : string) : VNode :=
  VEl "Badge"
    [ ("key"%string, AVal (JStr (lit quickPrompt)));
      sattr "variant" "secondary";
      cn "cursor-pointer hover:bg-purple-100";
      ("onClick"%string, AFun (CbSetPromptTo (lit quickPrompt))) ]
    [ VExpr (JStr (lit quickPrompt)) ].

Section Literals.
Import PrimFloat.

(** The number 3 of [rows={3}]. *)
Definition three : PrimFloat.float := 3%float.

End Literals.

Definition double_quote : string := String "034"%char EmptyString.

(** Lines 76-236, the return value of the component. *)
Definition WallpaperGenerator (st : State) : VNode :=
  VEl "div" [cn "min-h-screen bg-gradient-to-br from-purple-50 to-pink-50 p-4"]
  [ VEl "div" [cn "max-w-6xl mx-auto"]
    [ VEl "div" [cn "text-center mb-8"]
        [ VEl "h1" [cn "text-4xl font-bold bg-gradient-to-r from-purple-600 to-pink-600 bg-clip-text text-transparent mb-2"]
            [ VTxt "AI Phone Wallpaper Generator" ];
          VEl "p" [cn "text-gray-600"]
            [ VTxt "Create stunning phone wallpapers with AI" ] ];
      VEl "div" [cn "grid lg:grid-cols-2 gap-8"]
        [ VEl "div" [cn "space-y-6"]
            [ VEl "Card" []
                [ VEl "CardHeader" []
                    [ VEl "CardTitle" [cn "flex items-center gap-2"]
                        [ VEl "Smartphone" [cn "w-5 h-5"] [];
                          VTxt "Generate Wallpaper" ] ];
                  VEl "CardContent" [cn "space-y-4"]
                    [ VEl "div" []
                        [ VEl "label" [cn "block text-sm font-medium mb-2"]
                            [ VTxt "Describe your wallpaper" ];
                          VEl "Textarea"
                            [ ("value"%string, AVal (JStr (prompt st)));
                              ("onChange"%string, AFun CbSetPromptFromEvent);
                              sattr "placeholder" "e.g., Serene mountain landscape at sunset with purple sky, mystical forest with glowing fireflies, abstract geometric patterns...";
                              ("rows"%string, AVal (JNum three));
                              cn "w-full" ]
                            [] ];
                      VEl "div" []
                        [ VEl "label" [cn "block text-sm font-medium mb-2"]
                            [ VTxt "Style (optional)" ];
                          VEl "Select"
                            [ ("value"%string, AVal (JStr (style st)));
                              ("onValueChange"%string, AFun CbSetStyle) ]
                            [ VEl "SelectTrigger" []
                                [ VEl "SelectValue" [sattr "placeholder" "Choose a style"] [] ];
                              VEl "SelectContent" [] (map styleItem styles) ] ];
                      (if truthy (error st)
                       then VEl "div" [cn "p-3 text-sm text-red-600 bg-red-50 rounded-md border border-red-200"]
                              [ VExpr (error st) ]
                       else VExpr (error st));
                      VEl "Button"
                        [ ("onClick"%string, AFun CbGenerateWallpaper);
                          ("disabled"%string, AVal (JBool (isGenerating st)));
                          cn "w-full";
                          sattr "size" "lg" ]
                        [ if isGenerating st
                          then VEl "Fragment" []
                                 [ VEl "Loader2" [cn "w-4 h-4 mr-2 animate-spin"] [];
                                   VTxt "Generating..." ]
                          else VExpr (JStr (lit "Generate Wallpaper")) ] ] ];
              VEl "Card" []
                [ VEl "CardHeader" []
                    [ VEl "CardTitle" [] [ VTxt "Quick Prompts" ] ];
                  VEl "CardContent" []
                    [ VEl "div" [cn "flex flex-wrap gap-2"]
                        (map quickBadge quickPrompts) ] ] ];
          VEl "div" [cn "space-y-6"]
            [ VEl "Card" []
                [ VEl "CardHeader" []
                    [ VEl "CardTitle" [] [ VTxt "Preview" ] ];
                  VEl "CardContent" []
                    [ VEl "div" [cn "flex justify-center"]
                        [ VPreview (PhonePreview (generatedImage st)
                                      (JBool (isGenerating st))) ];
                      (if truthy (generatedImage st)
                       then VEl "div" [cn "mt-6 flex flex-col sm:flex-row gap-3"]
                              [ VEl "Button"
                                  [ ("onClick"%string, AFun CbDownloadWallpaper);
                                    sattr "variant" "outline";
                                    cn "flex-1" ]
                                  [ VEl "Download" [cn "w-4 h-4 mr-2"] [];
                                    VTxt "Download" ];
                                VEl "Button"
                                  [ ("onClick"%string, AFun CbGenerateWallpaper);
                                    sattr "variant" "outline";
                                    cn "flex-1";
                                    ("disabled"%string, AVal (JBool (isGenerating st))) ]
                                  [ VEl "RefreshCw" [cn "w-4 h-4 mr-2"] [];
                                    VTxt "Regenerate" ] ]
                       else VExpr (generatedImage st)) ] ];
              VEl "Card" []
                [ VEl "CardHeader" []
                    [ VEl "CardTitle" [] [ VTxt "Tips for Better Results" ] ];
                  VEl "CardContent" [cn "text-sm text-gray-600 space-y-2"]
                    [ VEl "p" [] [ VTxt "• Be descriptive with colors, lighting, and mood" ];
                      VEl "p" [] [ VTxt "• Mention specific art styles for unique looks" ];
                      VEl "p" []
                        [ VTxt ("• Use adjectives like " ++ double_quote ++ "vibrant"
                                ++ double_quote ++ ", " ++ double_quote ++ "serene"
                                ++ double_quote ++ ", " ++ double_quote ++ "dramatic"
                                ++ double_quote) ];
                      VEl "p" [] [ VTxt "• Try combining different elements for creative results" ] ] ] ] ] ] ].

(** *** Reading the page *)

(** All elements of the page in document order. *)
Fixpoint vnodes (n : VNode) : list VNode :=
  n :: match n with
       | VEl _ _ children =>
           (fix over (l : list VNode) : list VNode :=
              match l with
              | [] => []
              | c :: rest => vnodes c ++ over rest
              end) children
       | VTxt _ | VExpr _ | VPreview _ => []
       end.

Fixpoint attr (name : string) (attrs : list (string * Attr)) : option Attr :=
  match attrs with
  | [] => None
  | (k, a) :: rest => if String.eqb k name then Some a else attr name rest
  end.

Definition attrs_of (n : VNode) : list (string * Attr) :=
  match n with
  | VEl _ attrs _ => attrs
  | VTxt _ | VExpr _ | VPreview _ => []
  end.

(** The callback an element binds to an event, if any. *)
Definition bound (event : string) (n : VNode) : option Callback :=
  match attr event (attrs_of n) with
  | Some (AFun cb) => Some cb
  | _ => None
  end.

(** Whether an element carries a truthy [disabled] attribute. *)
Definition is_disabled (n : VNode) : bool :=
  match attr "disabled" (attrs_of n) with
  | Some (AVal v) => truthy v
  | _ => false
  end.

(** The elements with an onClick, in document order, each with its callback
    and whether it is disabled. *)
Definition clickables (page : VNode) : list (Callback * bool) :=
  flat_map (fun n => match bound "onClick" n with
                     | Some cb => [(cb, is_disabled n)]
                     | None => []
                     end) (vnodes page).

Definition handlers (event : string) (page : VNode) : list Callback :=
  flat_map (fun n => match bound event n with
                     | Some cb => [cb]
                     | None => []
                     end) (vnodes page).

(** The values of the SelectItem elements, in document order. *)
Definition select_values (page : VNode) : list jsstring :=
  flat_map (fun n => match n with
                     | VEl "SelectItem" attrs _ =>
                         match attr "value" attrs with
                         | Some (AVal (JStr v)) => [v]
                         | _ => []
                         end
                     | _ => []
                     end) (vnodes page).

(** *** Gestures *)

(** What a callback does when the page calls it: [arg] is the string the
    event carries (the text of the textarea, the value of the chosen item)
    and [now] the clock reading, for the callbacks that use them. *)
Definition call (env : option jsstring) (cb : Callback)
    (arg : jsstring) (now : Z) (pg : Page) : Page :=
  match cb with
  | CbGenerateWallpaper => submit env pg
  | CbDownloadWallpaper => run_handler pg (downloadWallpaper now (ui pg))
  | CbSetStyle => perform pg (SetStyle arg)
  | CbSetPromptFromEvent => perform pg (SetPrompt arg)
  | CbSetPromptTo text => perform pg (SetPrompt text)
  end.

(** What a user and the network can do to the rendered page: click the
    n-th element that has an onClick, type into the textarea, choose the
    k-th item of the Select, settle the i-th request in flight. *)
Inductive Gesture : Type :=
| Click (n : nat) (now : Z)
| TypeText (text : jsstring)
| ChooseStyle (k : nat)
| Respond (i : nat) (p : Settled).

(** One gesture on the page as rendered from the current state.  A click
    on a disabled element, or on an element that is not there, does
    nothing.  Like [step], [gstep] reads the tree of every state;
    [live_gstep] below is the gesture on what is really on the screen. *)
Definition gstep (env : option jsstring) (pg : Page) (g : Gesture) : Page :=
  let page := WallpaperGenerator (ui pg) in
  match g with
  | Click n now =>
      match nth_error (clickables page) n with
      | Some (cb, false) => call env cb [] now pg
      | Some (_, true) | None => pg
      end
  | TypeText text =>
      match handlers "onChange" page with
      | cb :: _ => call env cb text 0 pg
      | [] => pg
      end
  | ChooseStyle k =>
      match handlers "onValueChange" page, nth_error (select_values page) k with
      | cb :: _, Some v => call env cb v 0 pg
      | _, _ => pg
      end
  | Respond i p => step env pg (Settle i p)
  end.

Definition grun (env : option jsstring) (gs : list Gesture) : Page :=
  fold_left (gstep env) gs initial_page.

(** The event a gesture amounts to on a page in state [st], if any. *)
Definition event_of (st : State) (g : Gesture) : option Event :=
  match g with
  | Click 0 _ => Some ClickGenerate
  | Click (S k) now =>
      match nth_error quickPrompts k with
      | Some q => Some (ChangePrompt (lit q))
      | None =>
          if truthy (generatedImage st) then
            match k - List.length quickPrompts with
            | 0 => Some (ClickDownload now)
            | 1 => Some ClickRegenerate
            | _ => None
            end
          else None
      end
  | TypeText text => Some (ChangePrompt text)
  | ChooseStyle k =>
      match nth_error styleValues k with
      | Some v => Some (ChangeStyle v)
      | None => None
      end
  | Respond i p => Some (Settle i p)
  end.

(** The events the page can produce: the Select offers its twelve values
    only. *)
Definition from_page (ev : Event) : Prop :=
  match ev with
  | ChangeStyle label => In label styleValues
  | _ => True
  end.

(** A request as generateWallpaper builds it from a state whose style the
    Select has set. *)
Definition well_formed (env : option jsstring) (r : Request) : Prop :=
  fst r = API_BASE env ++ lit "/api/generate-wallpaper"
  /\ exists p s,
       snd r = JObj [(lit "prompt", JStr p); (lit "style", JStr s);
                     (lit "aspect_ratio", JStr (lit "9:16"))]
       /\ p <> [] /\ trim p = p /\ In s ([] :: styleValues).

Definition children_of (n : VNode) : list VNode :=
  match n with
  | VEl _ _ children => children
  | VTxt _ | VExpr _ | VPreview _ => []
  end.

Definition vhas_class (c : string) (n : VNode) : bool :=
  match attr "className" (attrs_of n) with
  | Some (AVal (JStr s)) => existsb (str_eqb (lit c)) (words [] s)
  | _ => false
  end.

(** The red boxes of the page (lines 129-133), the rendered previews, and
    the values an attribute takes on the elements of one tag. *)
Definition banners (page : VNode) : list VNode :=
  filter (vhas_class "text-red-600") (vnodes page).

Definition previews (page : VNode) : list Node :=
  flat_map (fun n => match n with
                     | VPreview rendered => [rendered]
                     | _ => []
                     end) (vnodes page).

Definition attr_values (tag name : string) (page : VNode) : list value :=
  flat_map (fun n => match n with
                     | VEl t attrs _ =>
                         if String.eqb t tag then
                           match attr name attrs with
                           | Some (AVal v) => [v]
                           | _ => []
                           end
                         else []
                     | _ => []
                     end) (vnodes page).

(** The changes of status one event can make: into Generating or into
    Failed from any status but Generating, and from Generating into
    Succeeded or Failed. *)
Definition allowed (s s' : UIStatus) : bool :=
  match s, s' with
  | Idle, (Idle | Generating | Failed) => true
  | Generating, (Generating | Succeeded | Failed) => true
  | Succeeded, (Succeeded | Generating | Failed) => true
  | Failed, (Failed | Generating) => true
  | _, _ => false
  end.

(** *** What React makes of the page *)

(** Whether React accepts a value in child position.  Strings and numbers
    are rendered as text, booleans, null and undefined as nothing, an array
    item by item; a plain object makes the render throw ("Objects are not
    valid as a React child"). *)
Fixpoint valid_child (v : value) : bool :=
  match v with
  | JObj _ => false
  | JArr items =>
      (fix all (l : list value) : bool :=
         match l with
         | [] => true
         | x :: rest => valid_child x && all rest
         end) items
  | JUndefined | JNull | JBool _ | JNum _ | JStr _ => true
  end.

(** The JavaScript values the page has in child position. *)
Definition child_values (page : VNode) : list value :=
  flat_map (fun n => match n with
                     | VExpr v => [v]
                     | _ => []
                     end) (vnodes page).

(** Whether the render of the page goes through. *)
Definition renders (page : VNode) : bool :=
  forallb valid_child (child_values page).

(** What is on the screen for a state: the controls of [render], or
    nothing when the render throws.  The component sits under no error
    boundary, so React then unmounts the root. *)
Definition mounted (st : State) : option Controls :=
  if renders (WallpaperGenerator st) then Some (render st) else None.

(** One gesture on the screen.  [None] is the screen after a render has
    thrown: the page is gone, and stays gone. *)
Definition live_gstep (env : option jsstring) (screen : option Page)
    (g : Gesture) : option Page :=
  match screen with
  | None => None
  | Some pg =>
      let pg' := gstep env pg g in
      if renders (WallpaperGenerator (ui pg')) then Some pg' else None
  end.

Definition live_grun (env : option jsstring) (gs : list Gesture)
    : option Page :=
  fold_left (live_gstep env) gs (Some initial_page).

(** A body whose error is an object. *)
Definition object_error_body : value :=
  JObj [(lit "success", JBool false);
        (lit "error", JObj [(lit "code", JStr (lit "E1"))])].

(** What holds of the requests in flight and of the style on every page
    the gestures can produce. *)
Definition tidy (env : option jsstring) (pg : Page) : Prop :=
  Forall (well_formed env) (inflight pg)
  /\ In (style (ui pg)) ([] :: styleValues).

(** The body of a successful response that delivers [u]. *)
Definition delivers (u : value) : value :=
  JObj [(lit "success", JBool true); (lit "image_url", u)].

(** * Properties *)

(** ** Trimming *)

Section Trim.

Lemma trimStart_blank (s : jsstring) :
  trimStart s = [] <-> forallb isWhiteSpace s = true.
Proof.
  induction s as [|c rest IH]; simpl.
  - tauto.
  - destruct (isWhiteSpace c); simpl.
    + exact IH.
    + split; discriminate.
Qed.

(** What [trimStart] leaves starts with a character that is not white
    space. *)
Lemma trimStart_head (s : jsstring) c rest :
  trimStart s = c :: rest -> isWhiteSpace c = false.
Proof.
  induction s as [|d s' IH]; simpl; [discriminate|].
  destruct (isWhiteSpace d) eqn:Hd; [exact IH|].
  intros H; injection H as -> _; exact Hd.
Qed.

Lemma forallb_rev {A} (f : A -> bool) (l : list A) :
  forallb f (rev l) = forallb f l.
Proof.
  induction l as [|x l IH]; simpl; [reflexivity|].
  rewrite forallb_app, IH; simpl.
  rewrite andb_true_r; apply andb_comm.
Qed.

Lemma trimEnd_blank (s : jsstring) :
  trimEnd s = [] <-> forallb isWhiteSpace s = true.
Proof.
  unfold trimEnd.
  rewrite <- (forallb_rev isWhiteSpace s), <- trimStart_blank.
  split; intros H.
  - apply (f_equal (@rev _)) in H; rewrite rev_involutive in H; exact H.
  - rewrite H; reflexivity.
Qed.

(** [prompt.trim()] is the empty string exactly when the prompt is empty
    or made of white space only. *)
Lemma trim_blank (s : jsstring) :
  trim s = [] <-> forallb isWhiteSpace s = true.
Proof.
  unfold trim; rewrite trimEnd_blank; split; intros H.
  - apply trimStart_blank.
    destruct (trimStart s) as [|c rest] eqn:E; [reflexivity|].
    apply trimStart_head in E; simpl in H; rewrite E in H; discriminate.
  - apply trimStart_blank in H; rewrite H; reflexivity.
Qed.

(** The guard of line 38, [!prompt.trim()]. *)
Lemma guard_blank (s : jsstring) :
  negb (truthy (JStr (trim s))) = forallb isWhiteSpace s.
Proof.
  destruct (forallb isWhiteSpace s) eqn:E.
  - apply trim_blank in E; rewrite E; reflexivity.
  - destruct (trim s) eqn:T; [|reflexivity].
    apply trim_blank in T; congruence.
Qed.

Example isWhiteSpace_samples :
  map isWhiteSpace [8; 9; 13; 14; 32; 65; 160; 8192; 8202; 8203; 12288; 65279]%N
  = [false; true; true; false; true; false; true; true; true; false; true; true].
Proof. reflexivity. Qed.

Example trim_sample : trim (lit "  a b  ") = lit "a b".
Proof. reflexivity. Qed.

End Trim.

(** ** What trimming keeps *)

Section TrimShape.

Lemma trimStart_split (s : jsstring) :
  exists pre, s = pre ++ trimStart s /\ forallb isWhiteSpace pre = true.
Proof.
  induction s as [|c rest (pre & E & W)]; simpl.
  - exists []; split; reflexivity.
  - destruct (isWhiteSpace c) eqn:Hc.
    + exists (c :: pre); simpl; rewrite Hc, W, <- E; split; reflexivity.
    + exists []; split; reflexivity.
Qed.

Lemma trimEnd_split (s : jsstring) :
  exists post, s = trimEnd s ++ post /\ forallb isWhiteSpace post = true.
Proof.
  unfold trimEnd; destruct (trimStart_split (rev s)) as (pre & E & W).
  exists (rev pre); split.
  - rewrite <- rev_app_distr, <- E, rev_involutive; reflexivity.
  - rewrite forallb_rev; exact W.
Qed.

(** A string that does not start with white space is left alone. *)
Lemma trimStart_fixed (s : jsstring) :
  isWhiteSpace (hd 32%N s) = false -> trimStart s = s.
Proof.
  destruct s as [|c rest]; simpl; [reflexivity|].
  intros ->; reflexivity.
Qed.

Lemma trimStart_hd (s : jsstring) :
  trimStart s <> [] -> isWhiteSpace (hd 32%N (trimStart s)) = false.
Proof.
  destruct (trimStart s) as [|c rest] eqn:E; [congruence|].
  intros _; simpl; eapply trimStart_head; exact E.
Qed.

Lemma hd_rev_last (s : jsstring) d : hd d (rev s) = last s d.
Proof.
  induction s as [|c rest IH] using rev_ind; [reflexivity|].
  rewrite rev_app_distr, last_last; reflexivity.
Qed.

Lemma trim_ends (s : jsstring) :
  trim s <> [] ->
  isWhiteSpace (hd 32%N (trim s)) = false
  /\ isWhiteSpace (last (trim s) 32%N) = false.
Proof.
  intros Hne; split.
  - destruct (trimEnd_split (trimStart s)) as (post & E & _).
    fold (trim s) in E.
    destruct (trim s) as [|c rest] eqn:T; [congruence|].
    simpl; eapply trimStart_head; rewrite E; reflexivity.
  - rewrite <- hd_rev_last.
    unfold trim, trimEnd in *; rewrite rev_involutive.
    apply trimStart_hd; intros E; apply Hne; rewrite E; reflexivity.
Qed.

Lemma trim_fixed (s : jsstring) :
  isWhiteSpace (hd 32%N s) = false ->
  isWhiteSpace (last s 32%N) = false ->
  trim s = s.
Proof.
  intros Hh Hl; unfold trim, trimEnd.
  rewrite (trimStart_fixed s Hh), trimStart_fixed, rev_involutive;
    [reflexivity|].
  rewrite hd_rev_last; exact Hl.
Qed.

Lemma trim_idempotent (s : jsstring) : trim (trim s) = trim s.
Proof.
  destruct (trim s) as [|c rest] eqn:T; [reflexivity|].
  rewrite <- T; apply trim_fixed; apply trim_ends; congruence.
Qed.

Lemma trim_split (s : jsstring) :
  exists pre post,
    s = pre ++ trim s ++ post
    /\ forallb isWhiteSpace pre = true
    /\ forallb isWhiteSpace post = true.
Proof.
  destruct (trimStart_split s) as (pre & E & W).
  destruct (trimEnd_split (trimStart s)) as (post & E' & W').
  exists pre, post; unfold trim; rewrite <- E', <- E; auto.
Qed.

End TrimShape.

(** ** The handlers, branch by branch *)

Lemma generateWallpaper_effects env st :
  effects_of (generateWallpaper env st) =
  if forallb isWhiteSpace (prompt st)
  then [SetError validation_message]
  else [SetIsGenerating true; SetError JNull;
        AxiosPost (fst (request_of env st)) (snd (request_of env st))].
Proof.
  unfold generateWallpaper; rewrite guard_blank.
  destruct (forallb isWhiteSpace (prompt st)); [reflexivity|].
  cbn -[lit trim]. unfold API. rewrite <- app_assoc. reflexivity.
Qed.

(** The three ways the continuation can go: the success branch, the else
    branch, and the catch clause (a rejected promise, or a body that is
    null or undefined so that reading [.success] throws). *)
Lemma resume_effects (p : Settled) :
  effects_of (generateWallpaper_resume p) =
  match p with
  | Rejected reason => caught reason
  | Fulfilled JUndefined | Fulfilled JNull => caught TypeError
  | Fulfilled data =>
      if truthy (field data "success")
      then [SetGeneratedImage (field data "image_url"); SetIsGenerating false]
      else [SetError (or_else (field data "error") server_fallback);
            SetIsGenerating false]
  end.
Proof.
  destruct p as [data|reason]; [|reflexivity].
  destruct data; try reflexivity.
  unfold generateWallpaper_resume, field, effects_of; simpl.
  destruct (truthy (lookup (lit "success") fields)); reflexivity.
Qed.

Lemma downloadWallpaper_effects now st :
  effects_of (downloadWallpaper now st) =
  if truthy (generatedImage st)
  then [AnchorClick
          {| href := generatedImage st;
             download := lit "wallpaper-" ++ int_to_string now ++ lit ".jpg";
             target := lit "_blank" |}]
  else [].
Proof.
  unfold downloadWallpaper; destruct (truthy (generatedImage st)); reflexivity.
Qed.

Lemma inflight_fold es : forall pg,
  inflight (fold_left perform es pg) = inflight pg ++ requests es.
Proof.
  induction es as [|e es IH]; intros pg; simpl.
  - symmetry; apply app_nil_r.
  - rewrite IH; destruct e; simpl; try reflexivity.
    rewrite <- app_assoc; reflexivity.
Qed.

Lemma or_else_fallback_truthy (e : value) :
  truthy (or_else e server_fallback) = true.
Proof.
  unfold or_else; destruct (truthy e) eqn:E; [exact E | reflexivity].
Qed.

(** ** Validation *)

(** C2.  When the prompt is empty or consists of white space only, submit()
    starts no request: the handler's only effect is setError with the fixed
    message 'Please enter a prompt', nothing is added to the requests in
    flight, the banner shows that message, and the status is Failed. *)
Theorem blank_prompt_is_rejected env pg :
  forallb isWhiteSpace (prompt (ui pg)) = true ->
  effects_of (generateWallpaper env (ui pg))
    = [SetError (JStr (lit "Please enter a prompt"))]
  /\ requests (effects_of (generateWallpaper env (ui pg))) = []
  /\ inflight (submit env pg) = inflight pg
  /\ error (ui (submit env pg)) = JStr (lit "Please enter a prompt")
  /\ banner (render (ui (submit env pg)))
       = Some (JStr (lit "Please enter a prompt"))
  /\ status (submit env pg) = Failed.
Proof.
  intros Hblank.
  assert (E : effects_of (generateWallpaper env (ui pg))
              = [SetError (JStr (lit "Please enter a prompt"))]).
  { rewrite generateWallpaper_effects, Hblank; reflexivity. }
  unfold submit, run_handler; rewrite E.
  repeat split; reflexivity.
Qed.

Lemma blank_prompt_is_rejected_witness :
  let pg := perform initial_page (SetPrompt (lit "  ")) in
  forallb isWhiteSpace (prompt (ui pg)) = true
  /\ inflight (submit None pg) = []
  /\ error (ui (submit None pg)) = JStr (lit "Please enter a prompt")
  /\ status (submit None pg) = Failed.
Proof.
  intros pg.
  destruct (blank_prompt_is_rejected None pg eq_refl)
    as (_ & _ & Hin & Herr & _ & Hst).
  repeat split; assumption.
Defined.

(** ** The response *)

Lemma resume_object pg fields :
  resume (Fulfilled (JObj fields)) pg =
  fold_left perform
    (if truthy (lookup (lit "success") fields)
     then [SetGeneratedImage (lookup (lit "image_url") fields);
           SetIsGenerating false]
     else [SetError (or_else (lookup (lit "error") fields) server_fallback);
           SetIsGenerating false]) pg.
Proof.
  unfold resume, run_handler; rewrite resume_effects; reflexivity.
Qed.

(** C4.  When the body of the response has success = false, the status
    becomes Failed and the banner shows [data.error || 'Failed to generate
    wallpaper']: the server's error string when there is one (a non-empty
    string), the fixed fallback when the field is absent. *)
Theorem server_failure_is_shown pg fields :
  lookup (lit "success") fields = JBool false ->
  let pg' := resume (Fulfilled (JObj fields)) pg in
  status pg' = Failed
  /\ isGenerating (ui pg') = false
  /\ error (ui pg')
       = or_else (lookup (lit "error") fields)
                 (JStr (lit "Failed to generate wallpaper"))
  /\ banner (render (ui pg')) = Some (error (ui pg'))
  /\ (forall c msg, lookup (lit "error") fields = JStr (c :: msg) ->
        error (ui pg') = JStr (c :: msg))
  /\ (lookup (lit "error") fields = JUndefined ->
        error (ui pg') = JStr (lit "Failed to generate wallpaper")).
Proof.
  intros Hs pg'; subst pg'.
  rewrite resume_object, Hs; cbn [truthy fold_left].
  pose proof (or_else_fallback_truthy (lookup (lit "error") fields)) as Ht.
  unfold server_fallback in *.
  cbn [perform ui write status status_after error isGenerating render banner].
  rewrite Ht.
  repeat split.
  - intros c msg E; rewrite E; reflexivity.
  - intros E; rewrite E; reflexivity.
Qed.

Lemma server_failure_is_shown_witness :
  let data := JObj [(lit "success", JBool false);
                    (lit "error", JStr (lit "bad prompt"))] in
  let pg' := resume (Fulfilled data) initial_page in
  status pg' = Failed
  /\ error (ui pg') = JStr (lit "bad prompt")
  /\ banner (render (ui pg')) = Some (JStr (lit "bad prompt")).
Proof.
  intros data pg'.
  destruct (server_failure_is_shown initial_page
              [(lit "success", JBool false);
               (lit "error", JStr (lit "bad prompt"))] eq_refl)
    as (Hst & _ & Herr & Hban & _).
  fold data in Hst, Herr, Hban; fold pg' in Hst, Herr, Hban.
  split; [exact Hst|].
  split; [rewrite Herr; reflexivity|].
  rewrite Hban, Herr; reflexivity.
Defined.

(** The else branch is taken whenever [data.success] is falsy: false, but
    also a missing flag, null, 0 or the empty string, and a body that is
    not an object at all. *)
Lemma falsy_success_fails pg data :
  get_prop data (lit "success") <> inr TypeError ->
  truthy (field data "success") = false ->
  status (resume (Fulfilled data) pg) = Failed
  /\ error (ui (resume (Fulfilled data) pg))
       = or_else (field data "error") server_fallback.
Proof.
  intros Hobj Hs; unfold resume, run_handler; rewrite resume_effects.
  destruct data; try (exfalso; apply Hobj; reflexivity);
    rewrite Hs; cbn [fold_left perform status status_after ui write error];
    rewrite or_else_fallback_truthy; split; reflexivity.
Qed.

(** A body that is null makes the read of [.success] throw inside the try
    block, and the catch clause treats it like a rejected promise. *)
Remark null_body_is_caught :
  let pg := resume (Fulfilled JNull) initial_page in
  status pg = Failed
  /\ error (ui pg) = transport_fallback
  /\ console pg = [[JStr (lit "Error generating wallpaper:"); TypeError]].
Proof. repeat split. Qed.

(** C6.  When the body of the response has success = true and image_url =
    u, the status becomes Succeeded and the stored image reference is u. *)
Theorem success_stores_image pg fields u :
  lookup (lit "success") fields = JBool true ->
  lookup (lit "image_url") fields = u ->
  let pg' := resume (Fulfilled (JObj fields)) pg in
  status pg' = Succeeded
  /\ generatedImage (ui pg') = u
  /\ isGenerating (ui pg') = false
  /\ error (ui pg') = error (ui pg).
Proof.
  intros Hs Hu pg'; subst pg'.
  rewrite resume_object, Hs, Hu.
  repeat split.
Qed.

Lemma success_stores_image_witness :
  let data := JObj [(lit "success", JBool true);
                    (lit "image_url", JStr (lit "https://x/y.jpg"))] in
  let pg' := resume (Fulfilled data) initial_page in
  status pg' = Succeeded
  /\ generatedImage (ui pg') = JStr (lit "https://x/y.jpg").
Proof.
  intros data pg'.
  destruct (success_stores_image initial_page
              [(lit "success", JBool true);
               (lit "image_url", JStr (lit "https://x/y.jpg"))]
              eq_refl eq_refl)
    as (Hst & Himg & _).
  split; assumption.
Defined.

(** C5.  When the promise is rejected (no connection, a timeout, a status
    outside 2xx), the status becomes Failed and the banner shows the fixed
    string 'Failed to generate wallpaper. Please try again.'; the new
    component state does not depend on the rejection reason, which goes to
    console.error and nowhere else. *)
Theorem transport_failure_is_masked pg reason :
  let pg' := resume (Rejected reason) pg in
  status pg' = Failed
  /\ ui pg' = {| prompt := prompt (ui pg); style := style (ui pg);
                 isGenerating := false;
                 generatedImage := generatedImage (ui pg);
                 error := JStr (lit "Failed to generate wallpaper. Please try again.") |}
  /\ banner (render (ui pg'))
       = Some (JStr (lit "Failed to generate wallpaper. Please try again."))
  /\ console pg'
       = console pg ++ [[JStr (lit "Error generating wallpaper:"); reason]]
  /\ inflight pg' = inflight pg
  /\ saved pg' = saved pg.
Proof.
  repeat split.
Qed.

(** ** The request *)

(** C8.  submit() starts at most one request, and only for a prompt that is
    not blank: an axios.post to the base URL followed by
    /api/generate-wallpaper whose body is exactly { prompt: the trimmed
    prompt, style, aspect_ratio: '9:16' }.  The trimmed prompt is the
    typed prompt without the white space at its two ends: the typed prompt
    is that text between two runs of white space, and the text neither
    starts nor ends with white space.  The base URL is the environment
    variable REACT_APP_API_URL, or http://localhost:8000 when that is
    undefined (or the empty string).  No other part of the component starts
    a request. *)
Theorem request_shape env st :
  requests (effects_of (generateWallpaper env st))
    = (if forallb isWhiteSpace (prompt st) then []
       else [(API_BASE env ++ lit "/api/generate-wallpaper",
              JObj [(lit "prompt", JStr (trim (prompt st)));
                    (lit "style", JStr (style st));
                    (lit "aspect_ratio", JStr (lit "9:16"))])])
  /\ (exists pre post,
        prompt st = pre ++ trim (prompt st) ++ post
        /\ forallb isWhiteSpace pre = true
        /\ forallb isWhiteSpace post = true)
  /\ (forallb isWhiteSpace (prompt st) = false ->
        isWhiteSpace (hd 32%N (trim (prompt st))) = false
        /\ isWhiteSpace (last (trim (prompt st)) 32%N) = false)
  /\ API_BASE None = lit "http://localhost:8000"
  /\ API_BASE (Some []) = lit "http://localhost:8000"
  /\ (forall c rest, API_BASE (Some (c :: rest)) = c :: rest)
  /\ (forall pg,
        inflight (submit env pg)
          = inflight pg ++ requests (effects_of (generateWallpaper env (ui pg))))
  /\ (forall p, requests (effects_of (generateWallpaper_resume p)) = [])
  /\ (forall now, requests (effects_of (downloadWallpaper now st)) = []).
Proof.
  split; [|split; [|split; [|repeat split]]].
  - rewrite generateWallpaper_effects.
    destruct (forallb isWhiteSpace (prompt st)); reflexivity.
  - apply trim_split.
  - intros Hnb; apply trim_ends.
    intros T; apply trim_blank in T; congruence.
  - intros pg; apply inflight_fold.
  - intros p; rewrite resume_effects.
    destruct p as [data|reason]; [|reflexivity].
    destruct data; try reflexivity;
      match goal with |- context [if ?b then _ else _] => destruct b end;
      reflexivity.
  - intros now; rewrite downloadWallpaper_effects.
    destruct (truthy (generatedImage st)); reflexivity.
Qed.

(** ** Download *)

Section FileName.

Lemma lit_inj (a b : string) : lit a = lit b -> a = b.
Proof.
  unfold lit; intros H.
  rewrite <- (string_of_list_ascii_of_string a),
          <- (string_of_list_ascii_of_string b).
  f_equal.
  revert H; generalize (list_ascii_of_string a) (list_ascii_of_string b).
  induction l as [|x l IH]; intros [|y l']; simpl; try discriminate.
  - reflexivity.
  - intros H; injection H as Hxy Hl.
    apply (f_equal ascii_of_N) in Hxy.
    rewrite !ascii_N_embedding in Hxy.
    rewrite Hxy, (IH l' Hl); reflexivity.
Qed.

(** Reading the digits back gives the number that was printed. *)
Lemma digits_read_back (d : Decimal.int) :
  option_map Z.of_int (NilZero.int_of_string (NilZero.string_of_int d))
  = Some (Z.of_int d).
Proof.
  destruct d as [u|u]; destruct u; try reflexivity;
    rewrite NilZero.isi by discriminate; reflexivity.
Qed.

Lemma int_to_string_inj (a b : Z) :
  int_to_string a = int_to_string b -> a = b.
Proof.
  unfold int_to_string; intros H; apply lit_inj in H.
  apply (f_equal (fun s => option_map Z.of_int (NilZero.int_of_string s))) in H.
  rewrite !digits_read_back, !DecimalZ.of_to in H.
  injection H as H; exact H.
Qed.

End FileName.

(** C9.  downloadWallpaper does nothing when no image reference is set
    (and the Download button is not even rendered then).  When one is set
    it clicks one anchor whose href is the current image reference and
    whose file name is wallpaper-<Date.now()>.jpg; the name determines the
    timestamp, so two different instants give two different names. *)
Theorem download_guarded now pg :
  let pg' := run_handler pg (downloadWallpaper now (ui pg)) in
  (if is_set (generatedImage (ui pg))
   then pg' = {| ui := ui pg; inflight := inflight pg; console := console pg;
                 saved := saved pg ++
                            [{| href := generatedImage (ui pg);
                                download := lit "wallpaper-" ++ int_to_string now
                                              ++ lit ".jpg";
                                target := lit "_blank" |}];
                 status := status pg |}
   else pg' = pg /\ effects_of (downloadWallpaper now (ui pg)) = [])
  /\ (forall env, step env pg (ClickDownload now) = pg')
  /\ (forall now', file_name now = file_name now' -> now = now').
Proof.
  intros pg'; subst pg'.
  split; [|split].
  - unfold run_handler, is_set; rewrite downloadWallpaper_effects.
    destruct (truthy (generatedImage (ui pg))); cbn [fold_left].
    + destruct pg as [[] ? ? ? ?]; reflexivity.
    + split; reflexivity.
  - intros env; unfold step, render, actionsShown.
    destruct (truthy (generatedImage (ui pg))) eqn:E; [reflexivity|].
    unfold run_handler; rewrite downloadWallpaper_effects, E; reflexivity.
  - intros now' H; unfold file_name in H.
    apply app_inv_head in H; apply app_inv_tail in H.
    apply int_to_string_inj; exact H.
Qed.

(** ** The preview *)

(** C7.  PhonePreview is a function of its two props and shows exactly one
    of three things.  With isLoading = true it shows the spinner, whatever
    the image reference is; with isLoading = false and an image reference
    set it shows one img element whose src is that reference and whose
    class list has object-cover; with isLoading = false and no image
    reference it shows the glyph and the caption. *)
Theorem preview_states (imageUrl : value) :
  visuals (PhonePreview imageUrl (JBool true)) = [ShowsLoading]
  /\ visuals (PhonePreview imageUrl (JBool false))
       = [if is_set imageUrl then ShowsImage else ShowsPlaceholder]
  /\ (forall isLoading,
        visuals (PhonePreview imageUrl isLoading)
          = [if truthy isLoading then ShowsLoading
             else if is_set imageUrl then ShowsImage else ShowsPlaceholder])
  /\ images (PhonePreview imageUrl (JBool false))
       = (if is_set imageUrl then [wallpaperImage imageUrl] else [])
  /\ prop "src" (props_of (wallpaperImage imageUrl)) = imageUrl
  /\ has_class "object-cover" (wallpaperImage imageUrl) = true
  /\ (List.length (glyphs (PhonePreview imageUrl (JBool false))),
      List.length (captions (PhonePreview imageUrl (JBool false))))
       = (if is_set imageUrl then (0, 0) else (1, 1))
  /\ (forall st, preview (render st)
                   = PhonePreview (generatedImage st) (JBool (isGenerating st))).
Proof.
  unfold is_set.
  assert (G : forall isLoading,
             visuals (PhonePreview imageUrl isLoading)
             = [if truthy isLoading then ShowsLoading
                else if truthy imageUrl then ShowsImage else ShowsPlaceholder]).
  { intros isLoading; unfold PhonePreview.
    destruct (truthy isLoading); [reflexivity|].
    destruct (truthy imageUrl); reflexivity. }
  split; [exact (G (JBool true))|].
  split; [exact (G (JBool false))|].
  split; [exact G|].
  unfold PhonePreview; cbn [truthy].
  destruct (truthy imageUrl); repeat split.
Qed.

(** ** Failed submissions and the image *)

(** C10.  A submission that ends in Failed, because the server reported a
    failure or because the promise was rejected, leaves the stored image
    reference as it was and sets the error message; submit() itself never
    writes the image reference either. *)
Theorem failure_keeps_image pg p :
  status (resume p pg) = Failed ->
  generatedImage (ui (resume p pg)) = generatedImage (ui pg)
  /\ is_set (error (ui (resume p pg))) = true
  /\ (forall env,
        generatedImage (ui (submit env pg)) = generatedImage (ui pg)).
Proof.
  intros Hf.
  assert (S : forall env,
             generatedImage (ui (submit env pg)) = generatedImage (ui pg)).
  { intros env; unfold submit, run_handler.
    rewrite generateWallpaper_effects.
    destruct (forallb isWhiteSpace (prompt (ui pg))); reflexivity. }
  revert Hf; unfold resume, run_handler, is_set; rewrite resume_effects.
  destruct p as [data|reason]; [|intros _; repeat split; exact S].
  destruct data; try (intros _; repeat split; exact S);
    match goal with |- context [if ?b then _ else _] => destruct b end;
    try discriminate; intros _; (split; [reflexivity|split; [|exact S]]).
  all: cbn [fold_left perform ui write error]; try reflexivity.
  apply or_else_fallback_truthy.
Qed.

Lemma failure_keeps_image_witness :
  let pg := run None [ChangePrompt (lit "sunset"); ClickGenerate;
                      Settle 0 (Fulfilled ok_body); ClickRegenerate] in
  let pg' := resume (Fulfilled bad_body) pg in
  status pg' = Failed
  /\ generatedImage (ui pg') = JStr (lit "https://x/y.jpg")
  /\ error (ui pg') = JStr (lit "bad prompt").
Proof.
  intros pg pg'.
  destruct (failure_keeps_image pg (Fulfilled bad_body) eq_refl)
    as (Himg & _ & _).
  fold pg' in Himg.
  split; [reflexivity|].
  split; [rewrite Himg; reflexivity | reflexivity].
Defined.

(** ** Reachable pages *)

Lemma coherent_initial : coherent initial_page.
Proof. repeat split. Qed.

Lemma coherent_submit env pg :
  coherent pg -> isGenerating (ui pg) = false -> coherent (submit env pg).
Proof.
  intros (Hlen & Hgen & Herr) Hidle.
  unfold submit, run_handler; rewrite generateWallpaper_effects.
  destruct pg as [[p s g img err] infl cons sv st]; simpl in *.
  clear Hgen; subst g.
  destruct (forallb isWhiteSpace p); unfold coherent; simpl.
  - repeat split; assumption.
  - rewrite length_app, Hlen; repeat split.
Qed.

Lemma coherent_resume p pg r :
  coherent pg -> inflight pg = [r] ->
  coherent (resume p {| ui := ui pg; inflight := []; console := console pg;
                        saved := saved pg; status := status pg |}).
Proof.
  intros (Hlen & Hgen & Herr) Hin.
  rewrite Hin in Hlen.
  destruct pg as [[pr s g img err] infl cons sv st]; simpl in *.
  destruct g; [|discriminate].
  destruct st; try discriminate; simpl in Herr; subst err.
  unfold resume, run_handler; rewrite resume_effects.
  destruct p as [data|reason]; [|repeat split].
  destruct data; try (repeat split; fail);
    match goal with |- context [if ?b then _ else _] => destruct b end;
    unfold coherent; simpl; repeat split;
    rewrite or_else_fallback_truthy; reflexivity.
Qed.

Lemma coherent_step env pg ev :
  coherent pg -> coherent (step env pg ev).
Proof.
  intros H; destruct ev; unfold step; cbn [render generateDisabled
    actionsShown regenerateDisabled].
  - destruct H as (? & ? & ?); repeat split; assumption.
  - destruct H as (? & ? & ?); repeat split; assumption.
  - destruct (isGenerating (ui pg)) eqn:E; [exact H|].
    apply coherent_submit; assumption.
  - destruct (truthy (generatedImage (ui pg))); [|exact H].
    destruct (isGenerating (ui pg)) eqn:E; [exact H|].
    apply coherent_submit; assumption.
  - destruct (truthy (generatedImage (ui pg))) eqn:E; [|exact H].
    unfold run_handler; rewrite downloadWallpaper_effects, E.
    destruct H as (? & ? & ?); repeat split; assumption.
  - destruct (nth_error (inflight pg) i) as [q|] eqn:E; [|exact H].
    pose proof H as (Hlen & _).
    destruct (inflight pg) as [|r [|r' rest]] eqn:Hin.
    + destruct i; discriminate.
    + destruct i as [|[|i]]; try discriminate.
      cbn [remove_nth]; rewrite <- Hin in *.
      eapply coherent_resume; [exact H | rewrite Hin; reflexivity].
    + simpl in Hlen; destruct (isGenerating (ui pg)); discriminate.
Qed.

Lemma coherent_from env evs : forall pg,
  coherent pg -> coherent (fold_left (step env) evs pg).
Proof.
  induction evs as [|ev evs IH]; intros pg H; simpl; [exact H|].
  apply IH, coherent_step, H.
Qed.

Lemma coherent_run env evs : coherent (run env evs).
Proof. apply coherent_from, coherent_initial. Qed.

(** ** One request at a time *)

(** A click on a disabled button does not reach the handler. *)
Lemma click_while_generating env pg :
  isGenerating (ui pg) = true ->
  step env pg ClickGenerate = pg /\ step env pg ClickRegenerate = pg.
Proof.
  intros H; unfold step; cbn [render generateDisabled actionsShown
    regenerateDisabled]; rewrite H, andb_false_r; split; reflexivity.
Qed.

(** The guard is the button's: generateWallpaper does not read
    isGenerating, and called on a page that is already generating it would
    start a second request. *)
Remark handler_reads_no_flag :
  let pg := run None [ChangePrompt (lit "sunset"); ClickGenerate] in
  status pg = Generating
  /\ List.length (inflight pg) = 1
  /\ List.length (inflight (submit None pg)) = 2.
Proof. repeat split. Qed.

(** C3.  On every page the events can produce at most one request is in
    flight.  Both buttons that call generateWallpaper are disabled exactly
    in status Generating, and there a click on either of them changes
    nothing: the component state, the request in flight and the status stay
    as they are, so the request is neither dropped nor joined by a second
    one. *)
Theorem single_flight env evs :
  let pg := run env evs in
  List.length (inflight pg) <= 1
  /\ generateDisabled (render (ui pg))
       = match status pg with Generating => true | _ => false end
  /\ regenerateDisabled (render (ui pg))
       = match status pg with Generating => true | _ => false end
  /\ (status pg = Generating ->
        List.length (inflight pg) = 1
        /\ step env pg ClickGenerate = pg
        /\ step env pg ClickRegenerate = pg
        /\ forall clicks,
             Forall (fun ev => ev = ClickGenerate \/ ev = ClickRegenerate) clicks ->
             fold_left (step env) clicks pg = pg).
Proof.
  intros pg; destruct (coherent_run env evs) as (Hlen & Hgen & _).
  fold pg in Hlen, Hgen.
  split; [rewrite Hlen; destruct (isGenerating (ui pg)); lia|].
  split; [exact Hgen|].
  split; [exact Hgen|].
  intros Hst; rewrite Hst in Hgen.
  destruct (click_while_generating env pg Hgen) as (Hg & Hr).
  split; [rewrite Hlen, Hgen; reflexivity|].
  split; [exact Hg|].
  split; [exact Hr|].
  induction 1 as [|ev clicks [-> | ->] _ IH]; cbn [fold_left]; [reflexivity| |].
  - rewrite Hg; exact IH.
  - rewrite Hr; exact IH.
Qed.

(** ** Image reference and error message *)

(** C1, as the spec states it, fails.  After a success and then a failure
    reported by the server both the image reference and the error message
    are set; after a success whose body carries no image_url neither is. *)
Lemma exactly_one_set_fails :
  (let pg := run None [ChangePrompt (lit "sunset"); ClickGenerate;
                       Settle 0 (Fulfilled ok_body); ClickRegenerate;
                       Settle 0 (Fulfilled bad_body)] in
   status pg = Failed
   /\ generatedImage (ui pg) = JStr (lit "https://x/y.jpg")
   /\ error (ui pg) = JStr (lit "bad prompt")
   /\ exactly_one_set (ui pg) = false)
  /\ (let pg := run None [ChangePrompt (lit "sunset"); ClickGenerate;
                          Settle 0 (Fulfilled (JObj [(lit "success", JBool true)]))] in
      status pg = Succeeded
      /\ generatedImage (ui pg) = JUndefined
      /\ error (ui pg) = JNull
      /\ exactly_one_set (ui pg) = false)
  /\ ~ (forall env evs,
          terminal (status (run env evs)) = true ->
          exactly_one_set (ui (run env evs)) = true).
Proof.
  split; [repeat split|].
  split; [repeat split|].
  intros H.
  specialize (H None [ChangePrompt (lit "sunset"); ClickGenerate;
                      Settle 0 (Fulfilled ok_body); ClickRegenerate;
                      Settle 0 (Fulfilled bad_body)] eq_refl).
  discriminate H.
Qed.

(** C1, amended.  On every page the events can produce the error message
    is set exactly when the status is Failed.  So on a page whose status is
    Failed exactly one of the two is set if and only if no image reference
    is stored, and on a page whose status is Succeeded if and only if an
    image reference is stored. *)
Theorem error_set_iff_failed env evs :
  let pg := run env evs in
  is_set (error (ui pg))
    = match status pg with Failed => true | _ => false end
  /\ (status pg = Failed ->
        exactly_one_set (ui pg) = negb (is_set (generatedImage (ui pg))))
  /\ (status pg = Succeeded ->
        exactly_one_set (ui pg) = is_set (generatedImage (ui pg))).
Proof.
  intros pg; destruct (coherent_run env evs) as (_ & _ & Herr).
  fold pg in Herr; unfold exactly_one_set, is_set.
  split; [|split]; [| intros S | intros S]; try rewrite S in Herr.
  - destruct (status pg); try rewrite Herr; reflexivity.
  - rewrite Herr; apply xorb_true_r.
  - rewrite Herr; apply xorb_false_r.
Qed.

(** * Further properties *)

(** X1.  For a prompt that is not blank, generateWallpaper sends exactly
    one request, and the prompt in its body is the typed prompt with white
    space removed at both ends and nothing else changed: it is not empty,
    it neither starts nor ends with white space, and the typed prompt is
    that text between two runs of white space. *)
Theorem request_prompt_is_trimmed env st :
  forallb isWhiteSpace (prompt st) = false ->
  exists p pre post,
    requests (effects_of (generateWallpaper env st))
      = [(API_BASE env ++ lit "/api/generate-wallpaper",
          JObj [(lit "prompt", JStr p); (lit "style", JStr (style st));
                (lit "aspect_ratio", JStr (lit "9:16"))])]
    /\ prompt st = pre ++ p ++ post
    /\ forallb isWhiteSpace pre = true
    /\ forallb isWhiteSpace post = true
    /\ isWhiteSpace (hd 32%N p) = false
    /\ isWhiteSpace (last p 32%N) = false
    /\ trim p = p.
Proof.
  intros Hnb.
  destruct (trim_split (prompt st)) as (pre & post & E & W & W').
  assert (Hne : trim (prompt st) <> []).
  { intros T; apply trim_blank in T; congruence. }
  destruct (trim_ends (prompt st) Hne) as (Hh & Hl).
  exists (trim (prompt st)), pre, post.
  rewrite generateWallpaper_effects, Hnb.
  repeat split; try assumption.
  apply trim_idempotent.
Qed.

Lemma request_prompt_is_trimmed_witness :
  let st := {| prompt := lit "  misty pines  "; style := lit "nature";
               isGenerating := false; generatedImage := JNull;
               error := JNull |} in
  exists p pre post,
    requests (effects_of (generateWallpaper None st))
      = [(lit "http://localhost:8000/api/generate-wallpaper",
          JObj [(lit "prompt", JStr p); (lit "style", JStr (lit "nature"));
                (lit "aspect_ratio", JStr (lit "9:16"))])]
    /\ prompt st = pre ++ p ++ post
    /\ isWhiteSpace (hd 32%N p) = false
    /\ isWhiteSpace (last p 32%N) = false.
Proof.
  intros st.
  destruct (request_prompt_is_trimmed None st eq_refl)
    as (p & pre & post & R & E & _ & _ & Hh & Hl & _).
  exists p, pre, post; repeat split; assumption.
Defined.

(** ** The continuation, whatever the response *)

(** The effects of the continuation always end with
    [setIsGenerating(false)], and none of them writes the prompt or the
    style or starts a request. *)
Lemma resume_shape (p : Settled) :
  exists e log,
    effects_of (generateWallpaper_resume p)
      = map ConsoleError log ++ [e; SetIsGenerating false]
    /\ ((exists v, e = SetGeneratedImage v)
        \/ (exists v, e = SetError v /\ truthy v = true)).
Proof.
  rewrite resume_effects.
  assert (C : forall exn, exists e log,
             caught exn = map ConsoleError log ++ [e; SetIsGenerating false]
             /\ ((exists v, e = SetGeneratedImage v)
                 \/ (exists v, e = SetError v /\ truthy v = true))).
  { intros exn; exists (SetError transport_fallback),
      [[JStr (lit "Error generating wallpaper:"); exn]].
    split; [reflexivity|]; right; eexists; split; reflexivity. }
  destruct p as [data|reason]; [|apply C].
  destruct data; try apply C;
    match goal with |- context [if ?b then _ else _] => destruct b end;
    eexists; exists []; (split; [reflexivity|]);
    solve [ left; eexists; reflexivity
          | right; eexists; split;
            [reflexivity | apply or_else_fallback_truthy] ].
Qed.

Lemma falsy_valid_child (v : value) :
  truthy v = false -> valid_child v = true.
Proof. destruct v; try reflexivity; discriminate. Qed.

Lemma child_values_page st :
  child_values (WallpaperGenerator st)
  = map (fun o => JStr (lit o)) styles
    ++ error st
    :: (if isGenerating st then [] else [JStr (lit "Generate Wallpaper")])
    ++ map (fun q => JStr (lit q)) quickPrompts
    ++ (if truthy (generatedImage st) then [] else [generatedImage st]).
Proof.
  unfold WallpaperGenerator.
  destruct (truthy (error st)), (isGenerating st),
    (truthy (generatedImage st)); reflexivity.
Qed.

(** The only value in child position that can be an object is the stored
    error. *)
Lemma renders_page st :
  renders (WallpaperGenerator st) = valid_child (error st).
Proof.
  unfold renders; rewrite child_values_page.
  rewrite forallb_app; cbn [forallb].
  rewrite !forallb_app.
  assert (S : forall l, forallb valid_child (map (fun o => JStr (lit o)) l) = true).
  { induction l as [|x l IH]; [reflexivity | exact IH]. }
  rewrite !S; cbn [andb].
  assert (G : forallb valid_child
                (if isGenerating st then []
                 else [JStr (lit "Generate Wallpaper")]) = true)
    by (destruct (isGenerating st); reflexivity).
  assert (I : forallb valid_child
                (if truthy (generatedImage st) then []
                 else [generatedImage st]) = true).
  { destruct (truthy (generatedImage st)) eqn:E; [reflexivity|].
    cbn [forallb]; rewrite (falsy_valid_child _ E); reflexivity. }
  rewrite G, I; cbn [andb]; apply andb_true_r.
Qed.

(** X2.  However the promise settles, the continuation completes without
    throwing, ends with the loading flag cleared, reaches a terminal
    status, and leaves the prompt, the style, the requests in flight and
    the downloads as they were.  When the new state can be rendered both
    generate buttons are enabled again; it cannot be rendered exactly when
    the error it holds is an object, and then nothing is on the screen. *)
Theorem resume_always_clears_loading (p : Settled) (pg : Page) :
  snd (generateWallpaper_resume p) = inl tt
  /\ isGenerating (ui (resume p pg)) = false
  /\ (forall v, mounted (ui (resume p pg)) = Some v ->
        v = render (ui (resume p pg))
        /\ generateDisabled v = false /\ regenerateDisabled v = false)
  /\ (mounted (ui (resume p pg)) = None
      <-> valid_child (error (ui (resume p pg))) = false)
  /\ mounted (ui (resume (Fulfilled object_error_body) pg)) = None
  /\ terminal (status (resume p pg)) = true
  /\ prompt (ui (resume p pg)) = prompt (ui pg)
  /\ style (ui (resume p pg)) = style (ui pg)
  /\ inflight (resume p pg) = inflight pg
  /\ saved (resume p pg) = saved pg.
Proof.
  assert (F : isGenerating (ui (resume p pg)) = false
              /\ terminal (status (resume p pg)) = true
              /\ prompt (ui (resume p pg)) = prompt (ui pg)
              /\ style (ui (resume p pg)) = style (ui pg)
              /\ inflight (resume p pg) = inflight pg
              /\ saved (resume p pg) = saved pg).
  { unfold resume, run_handler.
    destruct (resume_shape p) as (e & log & -> & He).
    rewrite fold_left_app.
    set (pg0 := fold_left perform (map ConsoleError log) pg).
    assert (H0 : prompt (ui pg0) = prompt (ui pg)
                 /\ style (ui pg0) = style (ui pg)
                 /\ inflight pg0 = inflight pg /\ saved pg0 = saved pg).
    { subst pg0; clear He; revert pg.
      induction log as [|l log IH]; intros pg; simpl; [auto|].
      destruct (IH (perform pg (ConsoleError l))) as (? & ? & ? & ?); auto. }
    destruct H0 as (Hp & Hs & Hi & Hd).
    destruct He as [(v & ->) | (v & -> & Hv)]; cbn [fold_left perform ui
      write isGenerating status status_after terminal prompt style inflight
      saved];
      rewrite ?Hv; cbn [terminal]; auto 10. }
  destruct F as (Hg & Ht & Hp & Hs & Hi & Hd).
  split.
  { destruct p as [data|reason]; [|reflexivity].
    destruct data; try reflexivity.
    unfold generateWallpaper_resume; simpl.
    destruct (truthy (lookup (lit "success") fields)); reflexivity. }
  split; [exact Hg|].
  split.
  { intros v Hm; unfold mounted in Hm.
    destruct (renders _); [injection Hm as <- | discriminate].
    cbn [render generateDisabled regenerateDisabled]; auto. }
  split.
  { unfold mounted; rewrite renders_page.
    destruct (valid_child _); split; congruence. }
  split.
  { unfold mounted; rewrite renders_page; reflexivity. }
  auto.
Qed.

Lemma resume_status (p : Settled) (pg : Page) :
  status (resume p pg)
  = match p with
    | Fulfilled data =>
        if truthy (field data "success") then Succeeded else Failed
    | Rejected _ => Failed
    end.
Proof.
  unfold resume, run_handler; rewrite resume_effects.
  destruct p as [data|reason]; [|reflexivity].
  destruct data; try reflexivity;
    destruct (truthy (field _ "success"));
    cbn [fold_left perform status status_after];
    rewrite ?or_else_fallback_truthy; reflexivity.
Qed.

(** X3.  A submission ends in Succeeded exactly when the promise is
    fulfilled with a body whose [success] is truthy; every other settlement
    ends in Failed.  The flag is tested for truthiness, so the string
    'false' or the number 1 count as success. *)
Theorem success_iff_truthy_flag (p : Settled) (pg : Page) :
  (status (resume p pg) = Succeeded
   <-> exists data, p = Fulfilled data /\ truthy (field data "success") = true)
  /\ (status (resume p pg) = Failed
      <-> forall data, p = Fulfilled data -> truthy (field data "success") = false)
  /\ status (resume (Fulfilled (JObj [(lit "success", JStr (lit "false"))])) pg)
       = Succeeded.
Proof.
  rewrite !resume_status.
  split; [|split; [|reflexivity]].
  - destruct p as [data|reason].
    + destruct (truthy (field data "success")) eqn:E; split.
      * intros _; exists data; auto.
      * reflexivity.
      * discriminate.
      * intros (d & [= <-] & Hd); congruence.
    + split; [discriminate | intros (d & [=] & _)].
  - destruct p as [data|reason].
    + destruct (truthy (field data "success")) eqn:E; split.
      * discriminate.
      * intros H; specialize (H data eq_refl); congruence.
      * intros _ d [= <-]; exact E.
      * reflexivity.
    + split; [intros _ d [=] | reflexivity].
Qed.

(** X4.  The console is written exactly when the catch clause runs: once
    for a rejected promise, with the rejection reason, and once for a body
    that is null or undefined, with the TypeError of the failed read.  A
    failure the server reports in a body is shown to the user but not
    logged, and a success logs nothing. *)
Theorem console_only_on_throw (p : Settled) (pg : Page) :
  console (resume p pg)
  = console pg ++
    match p with
    | Rejected reason => [[JStr (lit "Error generating wallpaper:"); reason]]
    | Fulfilled JNull | Fulfilled JUndefined =>
        [[JStr (lit "Error generating wallpaper:"); TypeError]]
    | Fulfilled _ => []
    end.
Proof.
  unfold resume, run_handler; rewrite resume_effects.
  destruct p as [data|reason]; [|reflexivity].
  destruct data; try reflexivity;
    destruct (truthy (field _ "success"));
    cbn [fold_left perform console]; rewrite app_nil_r; reflexivity.
Qed.

(** X5.  A fulfilled response whose body is not an object but a string, a
    number, a boolean or an array (a page of HTML behind a 200, say) has no
    [success] to read: the submission ends in Failed with the message
    'Failed to generate wallpaper', the image reference is not touched and
    nothing is logged. *)
Theorem non_object_body_fails (data : value) (pg : Page) :
  (forall fields, data <> JObj fields) ->
  data <> JNull -> data <> JUndefined ->
  let pg' := resume (Fulfilled data) pg in
  status pg' = Failed
  /\ error (ui pg') = JStr (lit "Failed to generate wallpaper")
  /\ generatedImage (ui pg') = generatedImage (ui pg)
  /\ isGenerating (ui pg') = false
  /\ console pg' = console pg.
Proof.
  intros Hobj Hnull Hundef pg'; subst pg'.
  unfold resume, run_handler; rewrite resume_effects.
  destruct data; try congruence; try (repeat split; fail).
Qed.

Lemma non_object_body_fails_witness :
  let pg' := resume (Fulfilled (JStr (lit "<html>Bad Gateway</html>")))
               initial_page in
  status pg' = Failed
  /\ error (ui pg') = JStr (lit "Failed to generate wallpaper")
  /\ console pg' = [].
Proof.
  intros pg'.
  assert (H1 : forall fields,
             JStr (lit "<html>Bad Gateway</html>") <> JObj fields)
    by (intros fields; discriminate).
  assert (H2 : JStr (lit "<html>Bad Gateway</html>") <> JNull)
    by discriminate.
  assert (H3 : JStr (lit "<html>Bad Gateway</html>") <> JUndefined)
    by discriminate.
  destruct (non_object_body_fails initial_page H1 H2 H3)
    as (Hs & He & _ & _ & Hc).
  repeat split; assumption.
Defined.

(** ** Where the stored values come from *)

Lemma run_snoc env evs ev :
  run env (evs ++ [ev]) = step env (run env evs) ev.
Proof. unfold run; rewrite fold_left_app; reflexivity. Qed.

Lemma submit_ui env pg :
  ui (submit env pg)
  = if forallb isWhiteSpace (prompt (ui pg))
    then write (ui pg) (SetError validation_message)
    else write (write (ui pg) (SetIsGenerating true)) (SetError JNull).
Proof.
  unfold submit, run_handler; rewrite generateWallpaper_effects.
  destruct (forallb isWhiteSpace (prompt (ui pg))); reflexivity.
Qed.

Lemma resume_image p pg :
  generatedImage (ui (resume p pg))
  = match p with
    | Fulfilled data =>
        if truthy (field data "success") then field data "image_url"
        else generatedImage (ui pg)
    | Rejected _ => generatedImage (ui pg)
    end.
Proof.
  unfold resume, run_handler; rewrite resume_effects.
  destruct p as [data|reason]; [|reflexivity].
  destruct data; try reflexivity;
    destruct (truthy (field _ "success")); reflexivity.
Qed.

Lemma resume_error p pg :
  error (ui (resume p pg))
  = match p with
    | Rejected _ | Fulfilled JNull | Fulfilled JUndefined => transport_fallback
    | Fulfilled data =>
        if truthy (field data "success") then error (ui pg)
        else or_else (field data "error") server_fallback
    end.
Proof.
  unfold resume, run_handler; rewrite resume_effects.
  destruct p as [data|reason]; [|reflexivity].
  destruct data; try reflexivity;
    destruct (truthy (field _ "success")); reflexivity.
Qed.

(** One event either leaves the image reference alone or is a settlement
    with a truthy [success] that stores its [image_url]. *)
Lemma step_image env pg ev :
  generatedImage (ui (step env pg ev)) = generatedImage (ui pg)
  \/ exists i data,
       ev = Settle i (Fulfilled data)
       /\ truthy (field data "success") = true
       /\ generatedImage (ui (step env pg ev)) = field data "image_url".
Proof.
  destruct ev; unfold step;
    cbn [render generateDisabled actionsShown regenerateDisabled].
  - left; reflexivity.
  - left; reflexivity.
  - left; destruct (isGenerating (ui pg)); [reflexivity|].
    rewrite submit_ui; destruct (forallb _ _); reflexivity.
  - left; destruct (_ && _); [|reflexivity].
    rewrite submit_ui; destruct (forallb _ _); reflexivity.
  - left; destruct (truthy (generatedImage (ui pg))) eqn:E; [|reflexivity].
    unfold run_handler; rewrite downloadWallpaper_effects, E; reflexivity.
  - destruct (nth_error (inflight pg) i); [|left; reflexivity].
    rewrite resume_image; destruct p as [data|reason]; [|left; reflexivity].
    destruct (truthy (field data "success")) eqn:E; [|left; reflexivity].
    right; exists i, data; auto.
Qed.

Lemma image_origin env evs :
  generatedImage (ui (run env evs)) = JNull
  \/ exists i data,
       In (Settle i (Fulfilled data)) evs
       /\ truthy (field data "success") = true
       /\ generatedImage (ui (run env evs)) = field data "image_url".
Proof.
  induction evs as [|ev evs IH] using rev_ind; [left; reflexivity|].
  rewrite run_snoc.
  destruct (step_image env (run env evs) ev) as [E | (i & data & -> & T & E)].
  - rewrite E; destruct IH as [IH | (i & data & Hin & T & IH)]; [left; exact IH|].
    right; exists i, data; repeat split; auto using in_or_app.
  - right; exists i, data; repeat split; auto.
    apply in_or_app; right; left; reflexivity.
Qed.

(** X6.  The stored image reference is null until a response is fulfilled
    with a truthy [success], and from then on it is the [image_url] of such
    a response; nothing else ever writes it.  Without such a response the
    Download and Regenerate buttons are never rendered. *)
Theorem image_comes_from_a_response env evs :
  (generatedImage (ui (run env evs)) = JNull
   \/ exists i data,
        In (Settle i (Fulfilled data)) evs
        /\ truthy (field data "success") = true
        /\ generatedImage (ui (run env evs)) = field data "image_url")
  /\ ((forall i data, In (Settle i (Fulfilled data)) evs ->
         truthy (field data "success") = false) ->
      generatedImage (ui (run env evs)) = JNull
      /\ actionsShown (render (ui (run env evs))) = false).
Proof.
  split; [apply image_origin|].
  intros Hnone.
  destruct (image_origin env evs) as [E | (i & data & Hin & T & _)].
  - unfold render, actionsShown; rewrite E; split; reflexivity.
  - rewrite (Hnone i data Hin) in T; discriminate.
Qed.

(** X7.  The error cell only ever holds null, one of the two fixed
    messages of the handler, or [data.error || 'Failed to generate
    wallpaper'] for a body the server sent without a truthy [success]; the
    reason of a rejected promise is never stored in it. *)
Theorem error_is_one_of_four env evs :
  let e := error (ui (run env evs)) in
  e = JNull
  \/ e = JStr (lit "Please enter a prompt")
  \/ e = JStr (lit "Failed to generate wallpaper. Please try again.")
  \/ exists i data,
       In (Settle i (Fulfilled data)) evs
       /\ truthy (field data "success") = false
       /\ e = or_else (field data "error")
                (JStr (lit "Failed to generate wallpaper")).
Proof.
  induction evs as [|ev evs IH] using rev_ind; [left; reflexivity|].
  cbv zeta in *; rewrite run_snoc.
  set (pg := run env evs) in *.
  assert (Keep : error (ui (step env pg ev)) = error (ui pg) ->
                 error (ui (step env pg ev)) = JNull
                 \/ error (ui (step env pg ev)) = JStr (lit "Please enter a prompt")
                 \/ error (ui (step env pg ev))
                    = JStr (lit "Failed to generate wallpaper. Please try again.")
                 \/ exists i data,
                      In (Settle i (Fulfilled data)) (evs ++ [ev])
                      /\ truthy (field data "success") = false
                      /\ error (ui (step env pg ev))
                         = or_else (field data "error")
                             (JStr (lit "Failed to generate wallpaper"))).
  { intros ->.
    destruct IH as [IH | [IH | [IH | (i & data & Hin & T & IH)]]]; auto.
    right; right; right; exists i, data; auto using in_or_app. }
  assert (Sub : error (ui (submit env pg)) = JNull
                \/ error (ui (submit env pg)) = JStr (lit "Please enter a prompt")).
  { rewrite submit_ui; destruct (forallb _ _); [right | left]; reflexivity. }
  destruct ev; unfold step in *;
    cbn [render generateDisabled actionsShown regenerateDisabled] in *.
  - apply Keep; reflexivity.
  - apply Keep; reflexivity.
  - destruct (isGenerating (ui pg)); [apply Keep; reflexivity|].
    destruct Sub as [-> | ->]; auto.
  - destruct (_ && _); [|apply Keep; reflexivity].
    destruct Sub as [-> | ->]; auto.
  - destruct (truthy (generatedImage (ui pg))) eqn:E; [|apply Keep; reflexivity].
    apply Keep; unfold run_handler; rewrite downloadWallpaper_effects, E.
    reflexivity.
  - destruct (nth_error (inflight pg) i); [|apply Keep; reflexivity].
    revert Keep; rewrite resume_error; intros Keep.
    destruct p as [data|reason]; [|auto].
    destruct (truthy (field data "success")) eqn:T.
    + destruct data; auto.
    + assert (Srv : exists i0 data0,
                 In (Settle i0 (Fulfilled data0)) (evs ++ [Settle i (Fulfilled data)])
                 /\ truthy (field data0 "success") = false
                 /\ or_else (field data "error") server_fallback
                    = or_else (field data0 "error")
                        (JStr (lit "Failed to generate wallpaper"))).
      { exists i, data; repeat split; auto.
        apply in_or_app; right; left; reflexivity. }
      destruct data; auto 6.
Qed.

(** One event either leaves the list of clicked anchors alone or is a click
    on Download while an image is stored, which adds one anchor. *)
Lemma step_saved env pg ev :
  saved (step env pg ev) = saved pg
  \/ exists now,
       ev = ClickDownload now
       /\ truthy (generatedImage (ui pg)) = true
       /\ saved (step env pg ev)
          = saved pg ++ [{| href := generatedImage (ui pg);
                            download := file_name now;
                            target := lit "_blank" |}].
Proof.
  assert (Sub : saved (submit env pg) = saved pg).
  { unfold submit, run_handler; rewrite generateWallpaper_effects.
    destruct (forallb _ _); reflexivity. }
  destruct ev; unfold step;
    cbn [render generateDisabled actionsShown regenerateDisabled].
  - left; reflexivity.
  - left; reflexivity.
  - left; destruct (isGenerating (ui pg)); [reflexivity | exact Sub].
  - left; destruct (_ && _); [exact Sub | reflexivity].
  - destruct (truthy (generatedImage (ui pg))) eqn:E; [|left; reflexivity].
    right; exists now; repeat split.
    unfold run_handler; rewrite downloadWallpaper_effects, E; reflexivity.
  - left; destruct (nth_error (inflight pg) i); [|reflexivity].
    unfold resume, run_handler.
    destruct (resume_shape p) as (e & log & -> & He).
    rewrite fold_left_app.
    assert (L : forall pg0,
               saved (fold_left perform (map ConsoleError log) pg0) = saved pg0).
    { induction log as [|l log IH]; intros pg0; simpl; [reflexivity|].
      rewrite IH; reflexivity. }
    destruct He as [(v & ->) | (v & -> & _)]; cbn [fold_left perform saved];
      rewrite L; reflexivity.
Qed.

(** X8.  Every anchor the page has clicked points at an image reference
    that a response with a truthy [success] delivered as its [image_url],
    opens in a new tab, and is named wallpaper-<now>.jpg for the clock
    reading of one of the clicks on Download; nothing is ever saved
    otherwise. *)
Theorem downloads_point_at_delivered_images env evs :
  Forall (fun a =>
            truthy (href a) = true
            /\ target a = lit "_blank"
            /\ (exists now, In (ClickDownload now) evs
                            /\ download a = file_name now)
            /\ (exists i data, In (Settle i (Fulfilled data)) evs
                               /\ truthy (field data "success") = true
                               /\ href a = field data "image_url"))
         (saved (run env evs)).
Proof.
  induction evs as [|ev evs IH] using rev_ind; [constructor|].
  rewrite run_snoc.
  assert (Old : Forall (fun a =>
            truthy (href a) = true
            /\ target a = lit "_blank"
            /\ (exists now, In (ClickDownload now) (evs ++ [ev])
                            /\ download a = file_name now)
            /\ (exists i data, In (Settle i (Fulfilled data)) (evs ++ [ev])
                               /\ truthy (field data "success") = true
                               /\ href a = field data "image_url"))
         (saved (run env evs))).
  { eapply Forall_impl; [|exact IH].
    intros a (Ht & Hb & (now & Hn & Hd) & (i & data & Hi & Hs & Hh)).
    repeat split; auto.
    - exists now; auto using in_or_app.
    - exists i, data; auto using in_or_app. }
  destruct (step_saved env (run env evs) ev) as [-> | (now & -> & T & ->)];
    [exact Old|].
  apply Forall_app; split; [exact Old|].
  constructor; [|constructor].
  cbn [href target download]; repeat split; auto.
  - exists now; split; [apply in_or_app; right; left|]; reflexivity.
  - destruct (image_origin env evs) as [E | (i & data & Hin & Hs & E)].
    + rewrite E in T; discriminate.
    + exists i, data; auto using in_or_app.
Qed.

(** ** The page and the events *)

(** The elements of the page that react to a click, read off the JSX: the
    Generate button, the six badges, and with an image stored the Download
    and Regenerate buttons.  Every element bound to generateWallpaper is
    disabled by the loading flag. *)
Lemma clickables_page st :
  clickables (WallpaperGenerator st)
  = (CbGenerateWallpaper, isGenerating st)
    :: map (fun q => (CbSetPromptTo (lit q), false)) quickPrompts
    ++ (if truthy (generatedImage st)
        then [(CbDownloadWallpaper, false);
              (CbGenerateWallpaper, isGenerating st)]
        else []).
Proof.
  unfold WallpaperGenerator.
  destruct (truthy (error st)), (isGenerating st),
    (truthy (generatedImage st)); reflexivity.
Qed.

Lemma handlers_page st :
  handlers "onChange" (WallpaperGenerator st) = [CbSetPromptFromEvent]
  /\ handlers "onValueChange" (WallpaperGenerator st) = [CbSetStyle]
  /\ select_values (WallpaperGenerator st) = styleValues.
Proof.
  unfold WallpaperGenerator.
  destruct (truthy (error st)), (isGenerating st),
    (truthy (generatedImage st)); repeat split.
Qed.

(** A gesture on the rendered page is the event [event_of] names, or
    nothing. *)
Lemma gstep_event env pg g :
  gstep env pg g
  = match event_of (ui pg) g with
    | Some ev => step env pg ev
    | None => pg
    end.
Proof.
  destruct (handlers_page (ui pg)) as (Hc & Hv & Hs).
  destruct g as [n now|text|k|i p]; unfold gstep.
  - rewrite clickables_page.
    destruct n as [|k].
    + cbn [nth_error event_of]; unfold step;
        cbn [render generateDisabled].
      destruct (isGenerating (ui pg)); reflexivity.
    + cbn [nth_error event_of].
      do 6 (destruct k as [|k]; [reflexivity|]).
      cbn [nth_error map quickPrompts app List.length Nat.sub].
      unfold step; cbn [render actionsShown regenerateDisabled].
      destruct (truthy (generatedImage (ui pg))) eqn:E.
      * destruct k as [|[|k]]; cbn [nth_error andb call];
          [reflexivity| |destruct k; reflexivity].
        destruct (isGenerating (ui pg)); reflexivity.
      * destruct k; reflexivity.
  - rewrite Hc; reflexivity.
  - rewrite Hv, Hs; cbn [event_of].
    destruct (nth_error styleValues k); reflexivity.
  - reflexivity.
Qed.

Lemma event_of_from_page st g ev :
  event_of st g = Some ev -> from_page ev.
Proof.
  destruct g as [n now|text|k|i p]; cbn [event_of].
  - destruct n as [|k]; [intros [= <-]; exact I|].
    destruct (nth_error quickPrompts k); [intros [= <-]; exact I|].
    destruct (truthy (generatedImage st)); [|discriminate].
    destruct (k - List.length quickPrompts) as [|[|?]];
      intros [= <-] || discriminate; exact I.
  - intros [= <-]; exact I.
  - destruct (nth_error styleValues k) eqn:E; [|discriminate].
    intros [= <-]; eapply nth_error_In; exact E.
  - intros [= <-]; exact I.
Qed.

Lemma gestures_as_events env gs : forall pg,
  exists evs,
    fold_left (gstep env) gs pg = fold_left (step env) evs pg
    /\ Forall from_page evs
    /\ List.length evs <= List.length gs.
Proof.
  induction gs as [|g gs IH]; intros pg; cbn [fold_left].
  - exists []; repeat split; [constructor | reflexivity].
  - rewrite gstep_event.
    destruct (event_of (ui pg) g) as [ev|] eqn:E.
    + destruct (IH (step env pg ev)) as (evs & R & F & L).
      exists (ev :: evs); cbn [fold_left List.length]; repeat split.
      * exact R.
      * constructor; [eapply event_of_from_page; exact E | exact F].
      * lia.
    + destruct (IH pg) as (evs & R & F & L).
      exists evs; cbn [List.length]; repeat split; auto.
Qed.

(** X9.  The page as rendered offers exactly the events of the transition
    system.  A click on the n-th clickable element, a keystroke in the
    textarea and a choice in the Select each act as one event or not at
    all (a disabled button, an element that is not rendered), so every
    sequence of gestures leads to a page that a sequence of events, no
    longer, leads to as well, with every style chosen among the twelve
    values of the Select. *)
Theorem gestures_refine_events env gs :
  (forall pg g,
     gstep env pg g
     = match event_of (ui pg) g with
       | Some ev => step env pg ev
       | None => pg
       end)
  /\ exists evs,
       grun env gs = run env evs
       /\ Forall from_page evs
       /\ List.length evs <= List.length gs.
Proof.
  split; [intros pg g; apply gstep_event|].
  apply gestures_as_events.
Qed.

(** ** Requests and styles on the rendered page *)

Lemma resume_frame p pg :
  prompt (ui (resume p pg)) = prompt (ui pg)
  /\ style (ui (resume p pg)) = style (ui pg)
  /\ inflight (resume p pg) = inflight pg.
Proof.
  unfold resume, run_handler.
  destruct (resume_shape p) as (e & log & -> & He).
  rewrite fold_left_app.
  assert (L : forall pg0,
             prompt (ui (fold_left perform (map ConsoleError log) pg0))
               = prompt (ui pg0)
             /\ style (ui (fold_left perform (map ConsoleError log) pg0))
                = style (ui pg0)
             /\ inflight (fold_left perform (map ConsoleError log) pg0)
                = inflight pg0).
  { induction log as [|l log IH]; intros pg0; simpl; [auto|].
    destruct (IH (perform pg0 (ConsoleError l))) as (? & ? & ?); auto. }
  destruct (L pg) as (Hp & Hs & Hi).
  destruct He as [(v & ->) | (v & -> & _)];
    cbn [fold_left perform ui write prompt style inflight]; auto.
Qed.

Lemma remove_nth_Forall {A} (P : A -> Prop) (l : list A) : forall i,
  Forall P l -> Forall P (remove_nth i l).
Proof.
  induction l as [|x l IH]; intros i H; [destruct i; constructor|].
  inversion H; subst; destruct i; cbn [remove_nth]; auto.
Qed.

Lemma tidy_submit env pg : tidy env pg -> tidy env (submit env pg).
Proof.
  intros (Hreq & Hsty); split.
  - unfold submit, run_handler; rewrite inflight_fold.
    apply Forall_app; split; [exact Hreq|].
    rewrite generateWallpaper_effects.
    destruct (forallb isWhiteSpace (prompt (ui pg))) eqn:B; [constructor|].
    constructor; [|constructor].
    split; [reflexivity|].
    exists (trim (prompt (ui pg))), (style (ui pg)); repeat split.
    + intros T; apply trim_blank in T; congruence.
    + apply trim_idempotent.
    + exact Hsty.
  - rewrite submit_ui; destruct (forallb _ _); exact Hsty.
Qed.

Lemma tidy_step env pg ev :
  from_page ev -> tidy env pg -> tidy env (step env pg ev).
Proof.
  intros Hev H; destruct ev; unfold step;
    cbn [render generateDisabled actionsShown regenerateDisabled].
  - exact H.
  - destruct H as (Hreq & _); split; [exact Hreq | right; exact Hev].
  - destruct (isGenerating (ui pg)); [exact H | apply tidy_submit, H].
  - destruct (_ && _); [apply tidy_submit, H | exact H].
  - destruct (truthy (generatedImage (ui pg))) eqn:E; [|exact H].
    unfold run_handler; rewrite downloadWallpaper_effects, E; exact H.
  - destruct (nth_error (inflight pg) i); [|exact H].
    destruct H as (Hreq & Hsty); unfold tidy.
    match goal with |- context [resume p ?pg0] =>
      destruct (resume_frame p pg0) as (_ & -> & ->) end.
    split; [apply remove_nth_Forall, Hreq | exact Hsty].
Qed.

Lemma tidy_from env evs : forall pg,
  Forall from_page evs -> tidy env pg -> tidy env (fold_left (step env) evs pg).
Proof.
  induction evs as [|ev evs IH]; intros pg F H; cbn [fold_left]; [exact H|].
  inversion F; subst; apply IH; [assumption|]; apply tidy_step; assumption.
Qed.

Lemma tidy_initial env : tidy env initial_page.
Proof. split; [constructor | left; reflexivity]. Qed.

(** X10.  Whatever is done on the rendered page, at most one request is in
    flight, and every request in flight goes to the base URL followed by
    /api/generate-wallpaper with a body of exactly three fields: a prompt
    that is not empty and is already trimmed, a style that is the empty
    string or one of the twelve lower-case values of the Select, and the
    aspect ratio '9:16'. *)
Theorem gesture_requests_well_formed env gs :
  let pg := grun env gs in
  List.length (inflight pg) <= 1
  /\ Forall (well_formed env) (inflight pg)
  /\ In (style (ui pg)) ([] :: styleValues).
Proof.
  intros pg; subst pg; unfold grun.
  destruct (gestures_as_events env gs initial_page) as (evs & -> & F & _).
  destruct (coherent_run env evs) as (Hlen & _).
  destruct (@tidy_from env evs initial_page F (tidy_initial env))
    as (Hreq & Hsty).
  fold (run env evs) in *.
  split; [rewrite Hlen; destruct (isGenerating _); lia|].
  split; assumption.
Qed.

(** ** Leaving and reaching the statuses *)

Lemma coherent_grun env gs : coherent (grun env gs).
Proof.
  unfold grun.
  destruct (gestures_as_events env gs initial_page) as (evs & -> & _).
  apply coherent_run.
Qed.

Lemma grun_snoc env gs g :
  grun env (gs ++ [g]) = gstep env (grun env gs) g.
Proof. unfold grun; rewrite fold_left_app; reflexivity. Qed.

(** On a page that is generating, an event other than the settlement of
    its request changes neither the status, nor the loading flag, nor the
    request, nor the image reference, nor the error. *)
Lemma generating_frame env pg ev :
  coherent pg -> isGenerating (ui pg) = true ->
  (forall p, ev <> Settle 0 p) ->
  let pg' := step env pg ev in
  status pg' = status pg
  /\ isGenerating (ui pg') = true
  /\ inflight pg' = inflight pg
  /\ generatedImage (ui pg') = generatedImage (ui pg)
  /\ error (ui pg') = error (ui pg).
Proof.
  intros (Hlen & _) Hgen Hev pg'; subst pg'.
  rewrite Hgen in Hlen.
  destruct ev; unfold step;
    cbn [render generateDisabled actionsShown regenerateDisabled];
    rewrite ?Hgen, ?andb_false_r; auto.
  - destruct (truthy (generatedImage (ui pg))) eqn:E; auto.
    unfold run_handler; rewrite downloadWallpaper_effects, E.
    cbn [fold_left perform ui write status status_after inflight]; auto.
  - destruct i as [|i]; [exfalso; eapply Hev; reflexivity|].
    destruct (inflight pg) as [|r [|r' rest]] eqn:Hin; try discriminate.
    destruct i; cbn [nth_error]; rewrite ?Hin; auto.
Qed.

(** X11.  While the status is Generating nothing done on the page ends it:
    clicks, typing and choosing a style leave the status, the loading
    flag, the request in flight, the image reference and the error as they
    are.  Only the settlement of the request leaves Generating; there is
    no cancel and no timeout of the component's own. *)
Theorem generating_left_only_by_settlement env gs g :
  status (grun env gs) = Generating ->
  (forall p, g <> Respond 0 p) ->
  let pg := grun env gs in
  let pg' := grun env (gs ++ [g]) in
  status pg' = Generating
  /\ isGenerating (ui pg') = true
  /\ inflight pg' = inflight pg
  /\ generatedImage (ui pg') = generatedImage (ui pg)
  /\ error (ui pg') = error (ui pg).
Proof.
  intros Hst Hg pg pg'; subst pg pg'.
  rewrite grun_snoc, gstep_event.
  pose proof (coherent_grun env gs) as C.
  assert (Hgen : isGenerating (ui (grun env gs)) = true).
  { destruct C as (_ & -> & _); rewrite Hst; reflexivity. }
  destruct (event_of (ui (grun env gs)) g) as [ev|] eqn:E; [|auto].
  rewrite <- Hst.
  apply generating_frame; [exact C | exact Hgen|].
  intros p ->.
  destruct g as [n now|text|k|i q]; cbn [event_of] in E.
  - destruct n as [|k]; [discriminate|].
    destruct (nth_error quickPrompts k); [discriminate|].
    destruct (truthy _); [|discriminate].
    destruct (k - List.length quickPrompts) as [|[|?]]; discriminate.
  - discriminate.
  - destruct (nth_error styleValues k); discriminate.
  - injection E as -> ->; eapply Hg; reflexivity.
Qed.

Lemma generating_left_only_by_settlement_witness :
  let gs := [TypeText (lit "sunset"); Click 0 0] in
  let pg := grun None gs in
  let pg' := grun None (gs ++ [Click 0 5]) in
  status pg = Generating
  /\ status pg' = Generating
  /\ inflight pg' = inflight pg.
Proof.
  intros gs pg pg'.
  assert (H : forall p, Click 0 5 <> Respond 0 p) by (intros p; discriminate).
  destruct (@generating_left_only_by_settlement None gs (Click 0 5) eq_refl H)
    as (Hs & _ & Hi & _).
  split; [reflexivity|]; split; assumption.
Defined.

(** On a page that is generating, a fulfilled response that delivers [u]
    ends in Succeeded with [u] stored. *)
Lemma settle_success env pg u :
  coherent pg -> isGenerating (ui pg) = true ->
  let pg' := step env pg (Settle 0 (Fulfilled (delivers u))) in
  status pg' = Succeeded
  /\ generatedImage (ui pg') = u
  /\ error (ui pg') = JNull
  /\ isGenerating (ui pg') = false
  /\ inflight pg' = [].
Proof.
  intros (Hlen & Hgen & Herr) G pg'; subst pg'.
  rewrite G in Hlen, Hgen.
  destruct (status pg) eqn:S; try discriminate.
  unfold step.
  destruct (inflight pg) as [|r [|r' rest]]; try discriminate.
  cbn [nth_error remove_nth].
  rewrite resume_status, resume_image, resume_error.
  match goal with |- context [resume ?p ?pg0] =>
    destruct (resume_frame p pg0) as (_ & _ & ->) end.
  cbn [ui inflight]; repeat split; try assumption.
Qed.

(** *** The screen *)

Lemma live_grun_app env gs gs' :
  live_grun env (gs ++ gs') = fold_left (live_gstep env) gs' (live_grun env gs).
Proof. unfold live_grun; apply fold_left_app. Qed.

Lemma live_none_final env gs : fold_left (live_gstep env) gs None = None.
Proof. induction gs as [|g gs IH]; [reflexivity | exact IH]. Qed.

Lemma live_gstep_some env pg g :
  valid_child (error (ui (gstep env pg g))) = true ->
  live_gstep env (Some pg) g = Some (gstep env pg g).
Proof.
  intros V; unfold live_gstep; rewrite renders_page, V; reflexivity.
Qed.

(** A page on the screen is the page the gestures lead to, and the error
    it holds can be rendered. *)
Lemma live_grun_some env gs : forall pg,
  live_grun env gs = Some pg ->
  pg = grun env gs /\ valid_child (error (ui pg)) = true.
Proof.
  induction gs as [|g gs IH] using rev_ind; intros pg H.
  - injection H as <-; split; reflexivity.
  - rewrite live_grun_app in H; cbn [fold_left] in H.
    destruct (live_grun env gs) as [pg0|]; [|discriminate].
    destruct (IH pg0 eq_refl) as (-> & _).
    unfold live_gstep in H; rewrite renders_page in H.
    destruct (valid_child _) eqn:V; [|discriminate].
    injection H as <-; rewrite grun_snoc; split; [reflexivity | exact V].
Qed.

Lemma generating_error_null pg :
  coherent pg -> isGenerating (ui pg) = true -> error (ui pg) = JNull.
Proof.
  intros (_ & Hgen & Herr) G; rewrite G in Hgen.
  destruct (status pg); try discriminate; exact Herr.
Qed.

(** X12.  No page on the screen is a dead end: from it at most three more
    gestures lead to Succeeded with any image reference the server chooses
    to deliver, every page on the way being rendered: the response alone
    when a request is in flight, otherwise a click on the first quick
    prompt, a click on Generate and the response.  The one dead end is the
    screen after a render has thrown, which a response whose error is an
    object produces, and which no gesture leaves. *)
Theorem success_always_reachable env gs (u : value) :
  match live_grun env gs with
  | Some _ =>
      exists gs' pg',
        List.length gs' <= 3
        /\ live_grun env (gs ++ gs') = Some pg'
        /\ status pg' = Succeeded
        /\ generatedImage (ui pg') = u
        /\ error (ui pg') = JNull
        /\ isGenerating (ui pg') = false
        /\ inflight pg' = []
  | None => forall gs', live_grun env (gs ++ gs') = None
  end
  /\ live_grun env [TypeText (lit "sunset"); Click 0 0;
                    Respond 0 (Fulfilled object_error_body)] = None.
Proof.
  split; [|vm_compute; reflexivity].
  destruct (live_grun env gs) as [pg|] eqn:L.
  - destruct (live_grun_some env gs L) as (-> & V).
    pose proof (coherent_grun env gs) as C.
    destruct (isGenerating (ui (grun env gs))) eqn:G.
    + destruct (@settle_success env (grun env gs) u C G)
        as (Hs & Hi & He & Hg & Hf).
      exists [Respond 0 (Fulfilled (delivers u))]; eexists.
      split; [cbn; lia|].
      rewrite live_grun_app, L; cbn [fold_left].
      rewrite live_gstep_some; cbn [gstep]; [|rewrite He; reflexivity].
      repeat split; assumption.
    + set (pg1 := gstep env (grun env gs) (Click 1 0)).
      assert (E1 : pg1 = step env (grun env gs)
                           (ChangePrompt (lit "Neon cityscape at night")))
        by (unfold pg1; rewrite gstep_event; reflexivity).
      assert (C1 : coherent pg1) by (rewrite E1; apply coherent_step, C).
      assert (G1 : isGenerating (ui pg1) = false) by (rewrite E1; exact G).
      assert (V1 : valid_child (error (ui pg1)) = true)
        by (rewrite E1; exact V).
      set (pg2 := gstep env pg1 (Click 0 0)).
      assert (E2 : pg2 = step env pg1 ClickGenerate)
        by (unfold pg2; rewrite gstep_event; reflexivity).
      assert (C2 : coherent pg2) by (rewrite E2; apply coherent_step, C1).
      assert (G2 : isGenerating (ui pg2) = true).
      { rewrite E2; unfold step; cbn [render generateDisabled].
        rewrite G1, submit_ui, E1; reflexivity. }
      assert (V2 : valid_child (error (ui pg2)) = true)
        by (rewrite (generating_error_null C2 G2); reflexivity).
      destruct (@settle_success env pg2 u C2 G2) as (Hs & Hi & He & Hg & Hf).
      exists [Click 1 0; Click 0 0; Respond 0 (Fulfilled (delivers u))].
      eexists; split; [cbn; lia|].
      rewrite live_grun_app, L; cbn [fold_left].
      rewrite (live_gstep_some env (grun env gs) (Click 1 0) V1).
      fold pg1; rewrite (live_gstep_some env pg1 (Click 0 0) V2).
      fold pg2; rewrite live_gstep_some; cbn [gstep];
        [|rewrite He; reflexivity].
      repeat split; assumption.
  - intros gs'; rewrite live_grun_app, L; apply live_none_final.
Qed.

(** X13.  A click on a quick prompt followed by a click on Generate, on a
    page that is not generating, sends that prompt word for word with the
    current style: the six prompts have no white space to trim at their
    ends. *)
Theorem quick_prompt_sent_verbatim env pg k q now now' :
  isGenerating (ui pg) = false ->
  nth_error quickPrompts k = Some q ->
  let pg' := gstep env (gstep env pg (Click (S k) now)) (Click 0 now') in
  inflight pg'
    = inflight pg ++
      [(API_BASE env ++ lit "/api/generate-wallpaper",
        JObj [(lit "prompt", JStr (lit q));
              (lit "style", JStr (style (ui pg)));
              (lit "aspect_ratio", JStr (lit "9:16"))])]
  /\ status pg' = Generating
  /\ prompt (ui pg') = lit q
  /\ error (ui pg') = JNull.
Proof.
  intros G Hq pg'; subst pg'.
  rewrite !gstep_event; cbn [event_of]; rewrite Hq.
  cbn [step perform ui write]; unfold step; cbn [render generateDisabled ui
    isGenerating]; rewrite G.
  assert (T : forallb isWhiteSpace (lit q) = false /\ trim (lit q) = lit q).
  { do 6 (destruct k as [|k]; [injection Hq as <-; split; reflexivity|]).
    destruct k; discriminate. }
  destruct T as (B & T).
  unfold submit, run_handler; rewrite generateWallpaper_effects.
  unfold request_of; cbn [fst snd].
  change (prompt (ui (perform pg (SetPrompt (lit q))))) with (lit q).
  change (style (ui (perform pg (SetPrompt (lit q))))) with (style (ui pg)).
  rewrite B, T.
  repeat split.
Qed.

Lemma quick_prompt_sent_verbatim_witness :
  let pg' := gstep None (gstep None initial_page (Click 4 0)) (Click 0 0) in
  inflight pg'
    = [(lit "http://localhost:8000/api/generate-wallpaper",
        JObj [(lit "prompt", JStr (lit "Cosmic galaxy spiral"));
              (lit "style", JStr []);
              (lit "aspect_ratio", JStr (lit "9:16"))])]
  /\ status pg' = Generating.
Proof.
  intros pg'.
  destruct (@quick_prompt_sent_verbatim None initial_page 3
              "Cosmic galaxy spiral" 0 0 eq_refl eq_refl)
    as (Hi & Hs & _).
  split; assumption.
Defined.

(** ** The rendered page and the state *)

(** X15.  The page is a function of the state in the way the transition
    system assumes: the red box is rendered exactly when the error is set
    and holds the stored error itself; the one preview gets the stored
    image reference and the loading flag; the textarea and the Select are
    controlled by [prompt] and [style]; and the clickable elements are the
    Generate button, the six badges and, only with an image stored, the
    Download and Regenerate buttons, the two buttons bound to
    generateWallpaper being disabled by the loading flag and nothing else
    ever disabled. *)
Theorem controls_match_page (st : State) :
  let page := WallpaperGenerator st in
  map children_of (banners page)
    = match banner (render st) with
      | Some e => [[VExpr e]]
      | None => []
      end
  /\ previews page = [preview (render st)]
  /\ attr_values "Textarea" "value" page = [JStr (prompt st)]
  /\ attr_values "Select" "value" page = [JStr (style st)]
  /\ clickables page
     = (CbGenerateWallpaper, generateDisabled (render st))
       :: map (fun q => (CbSetPromptTo (lit q), false)) quickPrompts
       ++ (if actionsShown (render st)
           then [(CbDownloadWallpaper, false);
                 (CbGenerateWallpaper, regenerateDisabled (render st))]
           else []).
Proof.
  unfold WallpaperGenerator, render; cbn [banner preview generateDisabled
    actionsShown regenerateDisabled].
  destruct (truthy (error st)), (isGenerating st),
    (truthy (generatedImage st)); repeat split.
Qed.

Lemma visuals_preview (imageUrl isLoading : value) :
  visuals (PhonePreview imageUrl isLoading)
  = [if truthy isLoading then ShowsLoading
     else if truthy imageUrl then ShowsImage else ShowsPlaceholder].
Proof.
  unfold PhonePreview.
  destruct (truthy isLoading); [reflexivity|].
  destruct (truthy imageUrl); reflexivity.
Qed.

Lemma images_preview (imageUrl : value) (loading : bool) :
  images (PhonePreview imageUrl (JBool loading))
  = if loading then []
    else if truthy imageUrl then [wallpaperImage imageUrl] else [].
Proof.
  unfold PhonePreview; cbn [truthy].
  destruct loading; [reflexivity|].
  destruct (truthy imageUrl); reflexivity.
Qed.

(** X14.  With an image stored, a click on Download always saves that
    image, also while a regeneration is in flight: the button has no
    disabled attribute.  When nothing is loading the file saved is the
    image the preview shows; while loading the preview shows the spinner
    and the file saved is the image of the previous generation. *)
Theorem download_matches_preview env pg now :
  is_set (generatedImage (ui pg)) = true ->
  let pg' := step env pg (ClickDownload now) in
  saved pg'
    = saved pg ++ [{| href := generatedImage (ui pg);
                      download := file_name now;
                      target := lit "_blank" |}]
  /\ In (CbDownloadWallpaper, false) (clickables (WallpaperGenerator (ui pg)))
  /\ map (fun n => prop "src" (props_of n))
         (images (preview (render (ui pg))))
     = (if isGenerating (ui pg) then [] else [generatedImage (ui pg)])
  /\ visuals (preview (render (ui pg)))
     = [if isGenerating (ui pg) then ShowsLoading else ShowsImage].
Proof.
  unfold is_set; intros T; cbv zeta.
  split; [|split; [|split]].
  - unfold step; cbn [render actionsShown]; rewrite T.
    unfold run_handler; rewrite downloadWallpaper_effects, T; reflexivity.
  - rewrite clickables_page, T.
    right; apply in_or_app; right; left; reflexivity.
  - cbn [render preview]; rewrite images_preview, T.
    destruct (isGenerating (ui pg)); reflexivity.
  - cbn [render preview]; rewrite visuals_preview, T; cbn [truthy].
    destruct (isGenerating (ui pg)); reflexivity.
Qed.

Lemma download_matches_preview_witness :
  let pg := run None [ChangePrompt (lit "sunset"); ClickGenerate;
                      Settle 0 (Fulfilled ok_body); ClickRegenerate] in
  let pg' := step None pg (ClickDownload 1700000000000) in
  status pg = Generating
  /\ saved pg'
     = [{| href := JStr (lit "https://x/y.jpg");
           download := lit "wallpaper-1700000000000.jpg";
           target := lit "_blank" |}]
  /\ visuals (preview (render (ui pg))) = [ShowsLoading].
Proof.
  intros pg pg'.
  destruct (@download_matches_preview None pg 1700000000000 eq_refl)
    as (Hs & _ & _ & Hv).
  split; [reflexivity|]; split; assumption.
Defined.

(** ** The statuses *)

Lemma submit_status env pg :
  status (submit env pg)
  = if forallb isWhiteSpace (prompt (ui pg)) then Failed else Generating.
Proof.
  unfold submit, run_handler; rewrite generateWallpaper_effects.
  destruct (forallb _ _); reflexivity.
Qed.

(** One event on a coherent page changes the status along an allowed edge
    and never stores an image without entering Succeeded. *)
Lemma step_status env pg ev :
  coherent pg ->
  allowed (status pg) (status (step env pg ev)) = true
  /\ (generatedImage (ui (step env pg ev)) = generatedImage (ui pg)
      \/ status (step env pg ev) = Succeeded).
Proof.
  intros (Hlen & Hgen & _).
  assert (Same : allowed (status pg) (status pg) = true)
    by (destruct (status pg); reflexivity).
  assert (Sub : isGenerating (ui pg) = false ->
                allowed (status pg) (status (submit env pg)) = true
                /\ (generatedImage (ui (submit env pg)) = generatedImage (ui pg)
                    \/ status (submit env pg) = Succeeded)).
  { intros G; rewrite G in Hgen; rewrite submit_status, submit_ui.
    destruct (forallb _ _); destruct (status pg); try discriminate;
      split; try reflexivity; left; reflexivity. }
  destruct ev; unfold step;
    cbn [render generateDisabled actionsShown regenerateDisabled]; auto.
  - destruct (isGenerating (ui pg)) eqn:G; auto.
  - destruct (truthy _); cbn [andb]; auto.
    destruct (isGenerating (ui pg)) eqn:G; cbn [negb]; auto.
  - destruct (truthy (generatedImage (ui pg))) eqn:E; auto.
    unfold run_handler; rewrite downloadWallpaper_effects, E; auto.
  - destruct (nth_error (inflight pg) i) eqn:E; auto.
    assert (G : isGenerating (ui pg) = true).
    { destruct (isGenerating (ui pg)); [reflexivity|].
      destruct (inflight pg); [destruct i|]; discriminate. }
    rewrite G in Hgen.
    rewrite resume_status, resume_image; cbn [status ui].
    destruct (status pg); try discriminate.
    destruct p as [data|reason]; [|auto].
    destruct (truthy (field data "success")); auto.
Qed.

(** X16.  The status moves only along these edges: from any status but
    Generating into Generating (a submission) or into Failed (a blank
    prompt), and from Generating into Succeeded or Failed (the response).
    So Idle is never entered again, Succeeded is reached from Generating
    only, and a failure is never turned into a success without a new
    request. *)
Theorem status_transitions env evs ev :
  allowed (status (run env evs)) (status (run env (evs ++ [ev]))) = true
  /\ (status (run env evs) <> Idle ->
      forall evs', status (run env (evs ++ evs')) <> Idle).
Proof.
  split.
  - rewrite run_snoc; apply step_status, coherent_run.
  - intros H evs'; induction evs' as [|e evs' IH] using rev_ind.
    + rewrite app_nil_r; exact H.
    + rewrite app_assoc, run_snoc.
      destruct (@step_status env (run env (evs ++ evs')) e
                  (coherent_run env (evs ++ evs'))) as (A & _).
      intros E; rewrite E in A.
      destruct (status (run env (evs ++ evs'))); try discriminate.
      apply IH; reflexivity.
Qed.

Lemma idle_has_no_image env evs :
  status (run env evs) = Idle -> generatedImage (ui (run env evs)) = JNull.
Proof.
  induction evs as [|ev evs IH] using rev_ind; [reflexivity|].
  rewrite run_snoc.
  destruct (@step_status env (run env evs) ev (coherent_run env evs))
    as (A & [-> | S]); intros E; rewrite E in *; [|discriminate].
  apply IH; destruct (status (run env evs)); try discriminate; reflexivity.
Qed.

(** X17.  What is on the screen in each status, for every page the
    gestures lead to without a render having thrown.  Idle: the
    placeholder, no error box, no Download or Regenerate button.
    Generating: the spinner in the preview, both generate buttons
    disabled, no error box.  Succeeded: no error box, and the image in the
    preview when the response carried one.  Failed: the error box with the
    stored message, which React can render, the buttons enabled again, and
    the preview as it was before the submission (the earlier image or the
    placeholder). *)
Theorem view_by_status env gs pg :
  live_grun env gs = Some pg ->
  let v := render (ui pg) in
  mounted (ui pg) = Some v
  /\ match status pg with
     | Idle =>
         visuals (preview v) = [ShowsPlaceholder]
         /\ banner v = None /\ actionsShown v = false
         /\ generateDisabled v = false
     | Generating =>
         visuals (preview v) = [ShowsLoading]
         /\ banner v = None
         /\ generateDisabled v = true /\ regenerateDisabled v = true
     | Succeeded =>
         visuals (preview v)
           = [if is_set (generatedImage (ui pg)) then ShowsImage
              else ShowsPlaceholder]
         /\ banner v = None /\ generateDisabled v = false
     | Failed =>
         visuals (preview v)
           = [if is_set (generatedImage (ui pg)) then ShowsImage
              else ShowsPlaceholder]
         /\ banner v = Some (error (ui pg))
         /\ is_set (error (ui pg)) = true
         /\ valid_child (error (ui pg)) = true
         /\ generateDisabled v = false
     end.
Proof.
  intros L v; subst v.
  destruct (live_grun_some env gs L) as (-> & V).
  split; [unfold mounted; rewrite renders_page, V; reflexivity|].
  revert V; unfold grun.
  destruct (gestures_as_events env gs initial_page) as (evs & -> & _).
  fold (run env evs); intros V.
  destruct (coherent_run env evs) as (_ & Hgen & Herr).
  pose proof (idle_has_no_image env evs) as Hidle.
  set (pg := run env evs) in *.
  unfold render, is_set;
    cbn [preview banner actionsShown generateDisabled regenerateDisabled].
  rewrite visuals_preview, Hgen.
  destruct (status pg); cbn [truthy]; try rewrite Herr;
    try rewrite (Hidle eq_refl); cbn [truthy]; repeat split; exact V.
Qed.

Lemma view_by_status_witness :
  let gs := [TypeText (lit "sunset"); Click 0 0;
             Respond 0 (Fulfilled bad_body)] in
  let pg := grun None gs in
  live_grun None gs = Some pg
  /\ status pg = Failed
  /\ mounted (ui pg) = Some (render (ui pg))
  /\ banner (render (ui pg)) = Some (JStr (lit "bad prompt")).
Proof.
  intros gs pg.
  assert (L : live_grun None gs = Some pg) by (vm_compute; reflexivity).
  destruct (@view_by_status None gs pg L) as (M & B).
  split; [exact L|].
  split; [reflexivity|].
  split; [exact M|].
  change (status pg) with Failed in B; cbv iota in B.
  destruct B as (_ & Hb & _); rewrite Hb; reflexivity.
Defined.
